(** * The to-do list screen of todoAPP (src/app/index.tsx)

    A shallow embedding of the [HomeScreen] component: the task list and
    its state updaters, the reminder scheduler with its two paths
    (platform notification, page timer) and the Beijing civil-time helpers,
    followed by the properties the specification states about them.

    The JavaScript runtime the component runs on is modelled in [Module JS]:
    numbers that are integers or NaN, strings, [parseInt], number
    formatting and the [Date] object.  The copy of the list kept in
    device storage (written after every change, read once on mount) is
    not part of the model. *)

From Stdlib Require Import ZArith String Ascii List Lia Bool DecimalString.
From Stdlib Require DecimalPos DecimalZ.
From stdpp Require Import gmap strings list.

Local Open Scope string_scope.
Local Open Scope Z_scope.

(** ** The JavaScript runtime *)

Module JS.

(** Every number the modelled code handles is an integer-valued double or
    NaN: clock readings, [Date] time values, results of [parseInt] and the
    fields read off a [Date]. *)
Inductive num : Type :=
  | NaN
  | Num (z : Z).

(** A property of type [T | null] that may also be absent. *)
Inductive opt (A : Type) : Type :=
  | Undefined
  | Null
  | Val (a : A).
Arguments Undefined {A}.
Arguments Null {A}.
Arguments Val {A} a.

(** [x ?? null]. *)
Definition orNull {A} (x : opt A) : opt A :=
  match x with
  | Undefined => Null
  | _ => x
  end.

(** Neither [null] nor [undefined]. *)
Definition present {A} (x : opt A) : bool :=
  match x with
  | Val _ => true
  | _ => false
  end.

(** Comparisons with NaN are false. *)
Definition lt (a b : num) : bool :=
  match a, b with
  | Num x, Num y => x <? y
  | _, _ => false
  end.

Definition le (a b : num) : bool :=
  match a, b with
  | Num x, Num y => x <=? y
  | _, _ => false
  end.

Definition isNaN (a : num) : bool :=
  match a with
  | NaN => true
  | Num _ => false
  end.

Definition add (a b : num) : num :=
  match a, b with
  | Num x, Num y => Num (x + y)
  | _, _ => NaN
  end.

Definition sub (a b : num) : num :=
  match a, b with
  | Num x, Num y => Num (x - y)
  | _, _ => NaN
  end.

(** [Math.max(a, b)]: NaN as soon as one argument is. *)
Definition max (a b : num) : num :=
  match a, b with
  | Num x, Num y => Num (Z.max x y)
  | _, _ => NaN
  end.


Definition truthy_str (s : string) : bool :=
  match s with
  | EmptyString => false
  | String _ _ => true
  end.

Definition truthy_opt {A} (t : A -> bool) (x : opt A) : bool :=
  match x with
  | Val a => t a
  | _ => false
  end.

(** *** Strings

    A string is a sequence of code units below 256.  White space is what
    [trim] and [parseInt] skip: TAB, LF, VT, FF, CR, SP and NBSP. *)
Definition isWhiteSpace (c : ascii) : bool :=
  let n := nat_of_ascii c in
  existsb (Nat.eqb n) [9; 10; 11; 12; 13; 32; 160]%nat.

Fixpoint trimStart (s : string) : string :=
  match s with
  | EmptyString => EmptyString
  | String c r => if isWhiteSpace c then trimStart r else s
  end.

Fixpoint trimEnd (s : string) : string :=
  match s with
  | EmptyString => EmptyString
  | String c r =>
      match trimEnd r with
      | EmptyString => if isWhiteSpace c then EmptyString else String c EmptyString
      | r' => String c r'
      end
  end.

Definition trim (s : string) : string := trimEnd (trimStart s).

(** [s.split(sep)] for a one-character separator. *)
Fixpoint split (sep : ascii) (s : string) : list string :=
  match s with
  | EmptyString => [EmptyString]
  | String c r =>
      if Ascii.eqb c sep then EmptyString :: split sep r
      else match split sep r with
           | h :: t => String c h :: t
           | [] => [String c EmptyString]
           end
  end.

Definition digit_of (c : ascii) : option Z :=
  let n := Z.of_nat (nat_of_ascii c) in
  if (48 <=? n) && (n <=? 57) then Some (n - 48) else None.

(** The longest prefix of decimal digits, as a number; [None] when the
    prefix is empty. *)
Fixpoint parse_digits (acc : option Z) (s : string) : option Z :=
  match s with
  | EmptyString => acc
  | String c r =>
      match digit_of c with
      | Some d => parse_digits (Some (10 * default 0 acc + d)) r
      | None => acc
      end
  end.

(** [parseInt(v, 10)]: leading white space, an optional sign, then digits;
    whatever follows the digits is ignored. *)
Definition parseInt (v : string) : num :=
  let s := trimStart v in
  let '(sign, body) :=
    match s with
    | String "-" r => (-1, r)
    | String "+" r => (1, r)
    | _ => (1, s)
    end in
  match parse_digits None body with
  | Some n => Num (sign * n)
  | None => NaN
  end.

(** [String(n)] and [`${n}`]: decimal digits with a leading minus sign
    (the exponent notation of magnitudes from 10^21 on is not modelled). *)
Definition String_of (n : num) : string :=
  match n with
  | NaN => "NaN"
  | Num z => NilZero.string_of_int (Z.to_int z)
  end.

(** *** Dates

    Days are counted from 1970-01-01 in the proleptic Gregorian calendar;
    [civil_from_days] is what [getUTCFullYear], [getUTCMonth] and
    [getUTCDate] read, [days_from_civil] is [MakeDay]. *)
Definition msPerDay : Z := 86400000.
Definition msPerHour : Z := 3600000.
Definition msPerMinute : Z := 60000.
Definition maxTime : Z := 8640000000000000.

Definition civil_from_days (z : Z) : Z * Z * Z :=
  let z := z + 719468 in
  let era := z / 146097 in
  let doe := z mod 146097 in
  let yoe := (doe - doe / 1460 + doe / 36524 - doe / 146096) / 365 in
  let doy := doe - (365 * yoe + yoe / 4 - yoe / 100) in
  let mp := (5 * doy + 2) / 153 in
  let d := doy - (153 * mp + 2) / 5 + 1 in
  let m := if mp <? 10 then mp + 3 else mp - 9 in
  let y := yoe + era * 400 + (if m <=? 2 then 1 else 0) in
  (y, m, d).

Definition days_from_civil (y m d : Z) : Z :=
  let y' := if m <=? 2 then y - 1 else y in
  let era := y' / 400 in
  let yoe := y' mod 400 in
  let mp := if 2 <? m then m - 3 else m + 9 in
  let doy := (153 * mp + 2) / 5 + d - 1 in
  let doe := yoe * 365 + yoe / 4 - yoe / 100 + doy in
  era * 146097 + doe - 719468.

Definition isLeap (y : Z) : bool :=
  (y mod 4 =? 0) && (negb (y mod 100 =? 0) || (y mod 400 =? 0)).

Definition daysInMonth (y m : Z) : Z :=
  if m =? 2 then (if isLeap y then 29 else 28)
  else if existsb (Z.eqb m) [4; 6; 9; 11] then 30 else 31.

(** [TimeClip]: a time value is an integer of magnitude at most 8.64e15,
    anything else is NaN (an invalid date). *)
Definition TimeClip (v : num) : num :=
  match v with
  | NaN => NaN
  | Num z => if Z.abs z <=? maxTime then Num z else NaN
  end.

(** A [Date] object holds one time value. *)
Record Date : Type := mkDate { getTime : num }.

(** [new Date(v)] for a number [v]. *)
Definition Date_of_num (v : num) : Date := mkDate (TimeClip v).

Definition onTime (f : Z -> Z) (d : Date) : num :=
  match getTime d with
  | NaN => NaN
  | Num t => Num (f t)
  end.

Definition getUTCFullYear : Date -> num :=
  onTime (fun t => let '(y, _, _) := civil_from_days (t / msPerDay) in y).
(** Zero-based, as in JavaScript. *)
Definition getUTCMonth : Date -> num :=
  onTime (fun t => let '(_, m, _) := civil_from_days (t / msPerDay) in m - 1).
Definition getUTCDate : Date -> num :=
  onTime (fun t => let '(_, _, d) := civil_from_days (t / msPerDay) in d).
Definition getUTCHours : Date -> num :=
  onTime (fun t => (t / msPerHour) mod 24).
Definition getUTCMinutes : Date -> num :=
  onTime (fun t => (t / msPerMinute) mod 60).

(** *** Parsing a date string

    [new Date(s)] for a string goes through [Date.parse].  ECMA-262 fixes
    the result for the Date Time String Format; the only shape of that
    format with a time, seconds and a numeric offset is
    [YYYY-MM-DDTHH:mm:ss+HH:mm] (the year may also be a sign and six
    digits).  Two points are left to the engine and are parameters here:
    - whether a day number up to 31 that the month does not have is
      refused ([strict_days]) or carried over into the next month;
    - what any string of another shape parses to ([other_parse]). *)
Record Engine : Type := mkEngine {
  strict_days : bool;
  other_parse : string -> num
}.

(** Exactly [n] decimal digits. *)
Fixpoint read_digits (n : nat) (acc : Z) (s : string) : option (Z * string) :=
  match n with
  | O => Some (acc, s)
  | S n' =>
      match s with
      | EmptyString => None
      | String c r =>
          match digit_of c with
          | Some d => read_digits n' (10 * acc + d) r
          | None => None
          end
      end
  end.

Definition expect (c : ascii) (s : string) : option string :=
  match s with
  | String c' r => if Ascii.eqb c c' then Some r else None
  | EmptyString => None
  end.

Definition read_year (s : string) : option (Z * string) :=
  match s with
  | String c r =>
      if Ascii.eqb c "+" then read_digits 6 0 r
      else if Ascii.eqb c "-" then
        '(y, r') ← read_digits 6 0 r;
        if y =? 0 then None else Some (- y, r')
      else read_digits 4 0 s
  | EmptyString => None
  end.

(** Offset in minutes east of UTC. *)
Definition read_offset (s : string) : option (Z * string) :=
  match s with
  | String "Z" r => Some (0, r)
  | String c r =>
      sign ← (if Ascii.eqb c "+" then Some 1
              else if Ascii.eqb c "-" then Some (-1) else None);
      '(oh, r1) ← read_digits 2 0 r;
      r2 ← expect ":" r1;
      '(om, r3) ← read_digits 2 0 r2;
      if (oh <=? 23) && (om <=? 59) then Some (sign * (oh * 60 + om), r3) else None
  | EmptyString => None
  end.

Record Fields : Type := mkFields {
  f_year : Z; f_month : Z; f_day : Z;
  f_hour : Z; f_minute : Z; f_second : Z;
  f_offset : Z
}.

Definition parse_format (s : string) : option Fields :=
  '(y, s) ← read_year s;
  s ← expect "-" s;
  '(m, s) ← read_digits 2 0 s;
  s ← expect "-" s;
  '(d, s) ← read_digits 2 0 s;
  s ← expect "T" s;
  '(hh, s) ← read_digits 2 0 s;
  s ← expect ":" s;
  '(mm, s) ← read_digits 2 0 s;
  s ← expect ":" s;
  '(ss, s) ← read_digits 2 0 s;
  '(off, s) ← read_offset s;
  match s with
  | EmptyString => Some (mkFields y m d hh mm ss off)
  | _ => None
  end.

Definition fields_in_bounds (strict : bool) (f : Fields) : bool :=
  (1 <=? f_month f) && (f_month f <=? 12) &&
  (1 <=? f_day f) && (f_day f <=? 31) &&
  (negb strict || (f_day f <=? daysInMonth (f_year f) (f_month f))) &&
  (f_minute f <=? 59) && (f_second f <=? 59) &&
  ((f_hour f <=? 23) || ((f_hour f =? 24) && (f_minute f =? 0) && (f_second f =? 0))).

Definition time_of_fields (f : Fields) : Z :=
  days_from_civil (f_year f) (f_month f) (f_day f) * msPerDay
  + f_hour f * msPerHour + f_minute f * msPerMinute + f_second f * 1000
  - f_offset f * msPerMinute.

Definition Date_parse (e : Engine) (s : string) : num :=
  match parse_format s with
  | Some f =>
      if fields_in_bounds (strict_days e) f
      then TimeClip (Num (time_of_fields f))
      else NaN
  | None => other_parse e s
  end.

(** [new Date(s)] for a string [s]. *)
Definition Date_of_string (e : Engine) (s : string) : Date :=
  mkDate (Date_parse e s).

End JS.

(** ** The data model *)

(** [type TodoItem]; the two reminder properties are optional. *)
Record TodoItem : Type := mkTodo {
  id : string;
  title : string;
  completed : bool;
  reminderTimestamp : JS.opt JS.num;
  notificationId : JS.opt string
}.

(** [{ ...t, completed: c }], [{ ...t, title: x }] and
    [{ ...t, reminderTimestamp: ts, notificationId: n }]. *)
Definition with_completed (c : bool) (t : TodoItem) : TodoItem :=
  mkTodo (id t) (title t) c (reminderTimestamp t) (notificationId t).

Definition with_title (x : string) (t : TodoItem) : TodoItem :=
  mkTodo (id t) x (completed t) (reminderTimestamp t) (notificationId t).

Definition with_reminder (ts : JS.opt JS.num) (n : JS.opt string) (t : TodoItem) : TodoItem :=
  mkTodo (id t) (title t) (completed t) ts n.

(** [Platform.OS]. *)
Inductive OS : Type := web | android | ios.

Definition is_web (o : OS) : bool :=
  match o with
  | web => true
  | _ => false
  end.

(** What the user is shown through [Alert.alert] and [alert]. *)
Inductive Message : Type :=
  | BadDateTime
  | NotFuture
  | PermissionOff
  | ReminderDue (text : string).

(** A pending [setTimeout] of the page-timer path: the task it was armed
    for, the title its alert shows, the [todos] its callback closed over
    and the instant it elapses at. *)
Record Timer : Type := mkTimer {
  timer_todo : string;
  timer_title : string;
  timer_closure : list TodoItem;
  timer_due : JS.num
}.

(** A notification the platform holds; the body is a task's title, or
    [None] for the fixed text shown when the task was not found. *)
Record Notification : Type := mkNotification {
  n_body : option string;
  n_date : JS.num
}.

(** What surrounds the component: the engine, the platform and its
    notification service, the timers of the event loop, the clock and the
    messages shown so far. *)
Record Env : Type := mkEnv {
  engine : JS.Engine;
  platformOS : OS;
  hasNotifications : bool;
  permissionGranted : bool;
  grantsOnRequest : bool;
  scheduled : gmap string Notification;
  nextNotification : Z;
  timers : gmap positive Timer;
  nextTimer : positive;
  now : Z;
  shown : list Message
}.

(** The state of [HomeScreen]: its [useState] cells, the [webTimersRef]
    table and the environment. *)
Record State : Type := mkState {
  todos : list TodoItem;
  draftTitle : string;
  editingId : option string;
  editingText : string;
  reminderModalVisible : bool;
  reminderDateText : string;
  reminderTimeText : string;
  reminderTargetId : option string;
  webTimers : gmap string positive;
  env : Env
}.

(** The state setters; [setTodos] takes an updater, as in the source. *)
Definition setTodos (f : list TodoItem -> list TodoItem) (s : State) : State :=
  mkState (f (todos s)) (draftTitle s) (editingId s) (editingText s)
    (reminderModalVisible s) (reminderDateText s) (reminderTimeText s)
    (reminderTargetId s) (webTimers s) (env s).

Definition setDraftTitle (v : string) (s : State) : State :=
  mkState (todos s) v (editingId s) (editingText s)
    (reminderModalVisible s) (reminderDateText s) (reminderTimeText s)
    (reminderTargetId s) (webTimers s) (env s).

Definition setEditingId (v : option string) (s : State) : State :=
  mkState (todos s) (draftTitle s) v (editingText s)
    (reminderModalVisible s) (reminderDateText s) (reminderTimeText s)
    (reminderTargetId s) (webTimers s) (env s).

Definition setEditingText (v : string) (s : State) : State :=
  mkState (todos s) (draftTitle s) (editingId s) v
    (reminderModalVisible s) (reminderDateText s) (reminderTimeText s)
    (reminderTargetId s) (webTimers s) (env s).

Definition setReminderModalVisible (v : bool) (s : State) : State :=
  mkState (todos s) (draftTitle s) (editingId s) (editingText s)
    v (reminderDateText s) (reminderTimeText s)
    (reminderTargetId s) (webTimers s) (env s).

Definition setReminderDateText (v : string) (s : State) : State :=
  mkState (todos s) (draftTitle s) (editingId s) (editingText s)
    (reminderModalVisible s) v (reminderTimeText s)
    (reminderTargetId s) (webTimers s) (env s).

Definition setReminderTimeText (v : string) (s : State) : State :=
  mkState (todos s) (draftTitle s) (editingId s) (editingText s)
    (reminderModalVisible s) (reminderDateText s) v
    (reminderTargetId s) (webTimers s) (env s).

Definition setReminderTargetId (v : option string) (s : State) : State :=
  mkState (todos s) (draftTitle s) (editingId s) (editingText s)
    (reminderModalVisible s) (reminderDateText s) (reminderTimeText s)
    v (webTimers s) (env s).

Definition setWebTimers (f : gmap string positive -> gmap string positive) (s : State) : State :=
  mkState (todos s) (draftTitle s) (editingId s) (editingText s)
    (reminderModalVisible s) (reminderDateText s) (reminderTimeText s)
    (reminderTargetId s) (f (webTimers s)) (env s).

Definition setEnv (f : Env -> Env) (s : State) : State :=
  mkState (todos s) (draftTitle s) (editingId s) (editingText s)
    (reminderModalVisible s) (reminderDateText s) (reminderTimeText s)
    (reminderTargetId s) (webTimers s) (f (env s)).

(** *** Effects on the environment *)

(** [Alert.alert(...)] and [alert(...)]. *)
Definition alert (m : Message) (e : Env) : Env :=
  mkEnv (engine e) (platformOS e) (hasNotifications e) (permissionGranted e)
    (grantsOnRequest e) (scheduled e) (nextNotification e) (timers e)
    (nextTimer e) (now e) (shown e ++ [m]).

(** [setTimeout(callback, delay)]: the handle returned and the new
    environment.  A delay that is NaN counts as none. *)
Definition setTimeout (todoId ttl : string) (closure : list TodoItem) (delay : JS.num)
    (e : Env) : positive * Env :=
  let h := nextTimer e in
  let due := match delay with
             | JS.NaN => JS.Num (now e)
             | JS.Num d => JS.Num (now e + d)
             end in
  (h, mkEnv (engine e) (platformOS e) (hasNotifications e) (permissionGranted e)
        (grantsOnRequest e) (scheduled e) (nextNotification e)
        (<[h := mkTimer todoId ttl closure due]> (timers e))
        (Pos.succ h) (now e) (shown e)).

(** [clearTimeout(h)]. *)
Definition clearTimeout (h : positive) (e : Env) : Env :=
  mkEnv (engine e) (platformOS e) (hasNotifications e) (permissionGranted e)
    (grantsOnRequest e) (scheduled e) (nextNotification e)
    (delete h (timers e)) (nextTimer e) (now e) (shown e).

(** [Notifications.scheduleNotificationAsync]: the platform returns a
    handle it has not given out before. *)
Definition scheduleNotificationAsync (body : option string) (date : JS.Date) (e : Env)
    : string * Env :=
  let h := "n" ++ JS.String_of (JS.Num (nextNotification e)) in
  (h, mkEnv (engine e) (platformOS e) (hasNotifications e) (permissionGranted e)
        (grantsOnRequest e)
        (<[h := mkNotification body (JS.getTime date)]> (scheduled e))
        (nextNotification e + 1) (timers e) (nextTimer e) (now e) (shown e)).

(** [Notifications.cancelScheduledNotificationAsync(h)]; an unknown
    handle is not an error. *)
Definition cancelScheduledNotificationAsync (h : string) (e : Env) : Env :=
  mkEnv (engine e) (platformOS e) (hasNotifications e) (permissionGranted e)
    (grantsOnRequest e) (delete h (scheduled e)) (nextNotification e)
    (timers e) (nextTimer e) (now e) (shown e).

(** [ensurePermission]: asks once when the permission is not granted
    yet. *)
Definition ensurePermission (e : Env) : bool * Env :=
  if negb (hasNotifications e) then (false, e)
  else if permissionGranted e then (true, e)
  else (grantsOnRequest e,
        mkEnv (engine e) (platformOS e) (hasNotifications e) (grantsOnRequest e)
          (grantsOnRequest e) (scheduled e) (nextNotification e) (timers e)
          (nextTimer e) (now e) (shown e)).

(** The clock moves on. *)
Definition advance (dt : Z) (e : Env) : Env :=
  mkEnv (engine e) (platformOS e) (hasNotifications e) (permissionGranted e)
    (grantsOnRequest e) (scheduled e) (nextNotification e) (timers e)
    (nextTimer e) (now e + dt) (shown e).

(** ** The task store

    An event handler and the asynchronous continuations it starts are run
    to completion, in program order, before the next event is taken.  A
    handler reads [todos] from the render it was created in; the functions
    below take that list as [closure] where the source reads it. *)

(** [todos.find((t) => t.id === todoId)]. *)
Definition find_todo (todoId : string) (l : list TodoItem) : option TodoItem :=
  List.find (fun t => String.eqb (id t) todoId) l.

(** [handleAddTodo]. *)
Definition handleAddTodo (s : State) : State :=
  let trimmed := JS.trim (draftTitle s) in
  if (String.length trimmed =? 0)%nat then s
  else
    let newItem :=
      mkTodo (JS.String_of (JS.Num (now (env s)))) trimmed false
        JS.Undefined JS.Undefined in
    setDraftTitle "" (setTodos (fun prev => newItem :: prev) s).

(** The first half of [clearReminder]: cancel the platform notification
    whose handle the task carries, stop the page timer registered under
    the task's id. *)
Definition cancelTriggers (closure : list TodoItem) (todoId : string) (s : State) : State :=
  let s1 :=
    match find_todo todoId closure with
    | Some todo =>
        match notificationId todo with
        | JS.Val h =>
            if JS.truthy_str h && hasNotifications (env s)
            then setEnv (cancelScheduledNotificationAsync h) s
            else s
        | _ => s
        end
    | None => s
    end in
  match webTimers s1 !! todoId with
  | Some h => setWebTimers (delete todoId) (setEnv (clearTimeout h) s1)
  | None => s1
  end.

(** The updater [clearReminder] ends with. *)
Definition resetReminder (todoId : string) (prev : list TodoItem) : list TodoItem :=
  map (fun t => if String.eqb (id t) todoId
                then with_reminder JS.Null JS.Null t else t) prev.

(** [clearReminder]. *)
Definition clearReminder (closure : list TodoItem) (todoId : string) (s : State) : State :=
  setTodos (resetReminder todoId) (cancelTriggers closure todoId s).

(** [handleDeleteTodo]. *)
Definition handleDeleteTodo (todoId : string) (s : State) : State :=
  setTodos (List.filter (fun t => negb (String.eqb (id t) todoId)))
    (clearReminder (todos s) todoId s).

(** [toggleComplete]. *)
Definition toggleComplete (todoId : string) (s : State) : State :=
  setTodos
    (map (fun t => if String.eqb (id t) todoId
                   then with_completed (negb (completed t)) t else t)) s.

(** [startEdit]. *)
Definition startEdit (todoId current : string) (s : State) : State :=
  setEditingText current (setEditingId (Some todoId) s).

(** [saveEdit]. *)
Definition saveEdit (s : State) : State :=
  match editingId s with
  | None => s
  | Some eid =>
      if negb (JS.truthy_str eid) then s
      else
        let trimmed := JS.trim (editingText s) in
        if (String.length trimmed =? 0)%nat
        then setEditingText "" (setEditingId None s)
        else
          setEditingText ""
            (setEditingId None
               (setTodos
                  (map (fun t => if String.eqb (id t) eid
                                 then with_title trimmed t else t)) s))
  end.

(** [cancelEdit]. *)
Definition cancelEdit (s : State) : State :=
  setEditingText "" (setEditingId None s).

(** [completeAll]. *)
Definition completeAll (s : State) : State :=
  setTodos (map (with_completed true)) s.

(** [deleteAll]; [ok] is the user's answer to the confirmation, on both
    the web and the native branch. *)
Definition deleteAll (ok : bool) (s : State) : State :=
  if ok then setTodos (fun _ => []) s else s.

(** [clearCompleted]: the updater first calls [clearReminder] on every
    completed task and returns the others; the resets those calls queue
    are applied after it. *)
Definition clearCompleted (s : State) : State :=
  let closure := todos s in
  let finished := List.filter completed (todos s) in
  let s1 := fold_left (fun acc t => cancelTriggers closure (id t) acc) finished s in
  let s2 := setTodos (List.filter (fun t => negb (completed t))) s1 in
  fold_left (fun acc t => setTodos (resetReminder (id t)) acc) finished s2.

(** *** The counters *)

Definition total (s : State) : Z := Z.of_nat (length (todos s)).

Definition completedCount (s : State) : Z :=
  Z.of_nat (length (List.filter completed (todos s))).

Definition pendingCount (s : State) : Z := total s - completedCount s.

(** The value of [percent]: the constant of the guard, or
    [Math.round((c / t) * 100)], a computation on doubles that is kept
    symbolic, with its operands. *)
Inductive Percent : Type :=
  | Zero
  | RoundRatio (c t : Z).

Definition percent (s : State) : Percent :=
  if total s =? 0 then Zero else RoundRatio (completedCount s) (total s).

(** ** The civil-time helpers *)

Record Parts : Type := mkParts {
  year : JS.num; month : JS.num; day : JS.num; hour : JS.num; minute : JS.num
}.

(** [getBeijingParts(ts)]; without [ts] it reads the clock. *)
Definition getBeijingParts (e : Env) (ts : JS.opt JS.num) : Parts :=
  let base := match ts with
              | JS.Val v => v
              | _ => JS.Num (now e)
              end in
  let d := JS.Date_of_num (JS.add base (JS.Num (8 * 60 * 60 * 1000))) in
  mkParts (JS.getUTCFullYear d) (JS.add (JS.getUTCMonth d) (JS.Num 1))
    (JS.getUTCDate d) (JS.getUTCHours d) (JS.getUTCMinutes d).

(** [pad2]. *)
Definition pad2 (n : JS.num) : string :=
  if JS.lt n (JS.Num 10) then "0" ++ JS.String_of n else JS.String_of n.

(** [formatBeijing]. *)
Definition formatBeijing (e : Env) (ts : JS.num) : string :=
  let p := getBeijingParts e (JS.Val ts) in
  JS.String_of (year p) ++ "-" ++ pad2 (month p) ++ "-" ++ pad2 (day p)
  ++ " " ++ pad2 (hour p) ++ ":" ++ pad2 (minute p).

Definition num_eqb (a b : JS.num) : bool :=
  match a, b with
  | JS.Num x, JS.Num y => x =? y
  | _, _ => false
  end.

(** [formatBeijingShort]. *)
Definition formatBeijingShort (e : Env) (ts : JS.num) : string :=
  let n := getBeijingParts e JS.Undefined in
  let p := getBeijingParts e (JS.Val ts) in
  let sameDay := num_eqb (year n) (year p) && num_eqb (month n) (month p)
                 && num_eqb (day n) (day p) in
  if sameDay then pad2 (hour p) ++ ":" ++ pad2 (minute p)
  else pad2 (month p) ++ "-" ++ pad2 (day p) ++ " " ++ pad2 (hour p) ++ ":" ++ pad2 (minute p).

(** The string [makeDateFromBeijingParts] builds. *)
Definition iso_of_parts (y m d hh mm : JS.num) : string :=
  JS.String_of y ++ "-" ++ pad2 m ++ "-" ++ pad2 d ++ "T" ++ pad2 hh ++ ":" ++ pad2 mm
  ++ ":00+08:00".

(** [makeDateFromBeijingParts]. *)
Definition makeDateFromBeijingParts (e : Env) (y m d hh mm : JS.num) : JS.Date :=
  JS.Date_of_string (engine e) (iso_of_parts y m d hh mm).

(** ** The reminder scheduler *)

(** The updater [scheduleReminder] ends with, on either path. *)
Definition recordReminder (todoId : string) (ts : JS.num) (n : JS.opt string)
    (prev : list TodoItem) : list TodoItem :=
  map (fun t => if String.eqb (id t) todoId
                then with_reminder (JS.Val ts) n t else t) prev.

(** [scheduleReminder]. *)
Definition scheduleReminder (closure : list TodoItem) (todoId : string) (date : JS.Date)
    (s : State) : State :=
  let s := clearReminder closure todoId s in
  if hasNotifications (env s) && negb (is_web (platformOS (env s))) then
    let '(ok, e1) := ensurePermission (env s) in
    if negb ok then setEnv (fun _ => alert PermissionOff e1) s
    else
      let body := title <$> find_todo todoId closure in
      let '(h, e2) := scheduleNotificationAsync body date e1 in
      setTodos (recordReminder todoId (JS.getTime date) (JS.Val h))
        (setEnv (fun _ => e2) s)
  else
    let delay := JS.max (JS.Num 0) (JS.sub (JS.getTime date) (JS.Num (now (env s)))) in
    let ttl := match find_todo todoId closure with
               | Some t => title t
               | None => ""
               end in
    let '(h, e1) := setTimeout todoId ttl closure delay (env s) in
    setTodos (recordReminder todoId (JS.getTime date) JS.Null)
      (setWebTimers (fun m => <[todoId := h]> m) (setEnv (fun _ => e1) s)).

(** The callback of a page timer, when timer [h] elapses: the alert, then
    [clearReminder] of the render the timer was created in. *)
Definition fireTimer (h : positive) (s : State) : State :=
  match timers (env s) !! h with
  | None => s
  | Some tm =>
      if JS.lt (JS.Num (now (env s))) (timer_due tm) then s
      else
        let s := setEnv (fun e => alert (ReminderDue (timer_title tm)) (clearTimeout h e)) s in
        clearReminder (timer_closure tm) (timer_todo tm) s
  end.

(** [openReminderPicker]: the date and time fields default to the next
    half hour of Beijing time. *)
Definition openReminderPicker (todoId : string) (s : State) : State :=
  let s := setReminderTargetId (Some todoId) s in
  let n := getBeijingParts (env s) JS.Undefined in
  let sameDay := JS.String_of (year n) ++ "-" ++ pad2 (month n) ++ "-" ++ pad2 (day n) in
  let late := JS.lt (JS.Num 30) (minute n) in
  let nextHour :=
    if late then
      match hour n with
      | JS.Num hr => JS.Num ((hr + 1) mod 24)
      | JS.NaN => JS.NaN
      end
    else hour n in
  let nextMinute := if JS.le (minute n) (JS.Num 30) then JS.Num 30 else JS.Num 0 in
  let dateText :=
    if late && num_eqb (hour n) (JS.Num 23) then
      let tomorrow :=
        JS.Date_of_num (JS.add (JS.Num (now (env s) + 8 * 3600 * 1000)) (JS.Num JS.msPerDay)) in
      JS.String_of (JS.getUTCFullYear tomorrow) ++ "-"
      ++ pad2 (JS.add (JS.getUTCMonth tomorrow) (JS.Num 1)) ++ "-"
      ++ pad2 (JS.getUTCDate tomorrow)
    else sameDay in
  setReminderModalVisible true
    (setReminderTimeText (pad2 nextHour ++ ":" ++ pad2 nextMinute)
       (setReminderDateText dateText s)).

(** The [onPress] of the modal's confirm button. *)
Definition confirmReminder (s : State) : State :=
  match reminderTargetId s with
  | None => s
  | Some target =>
      if negb (JS.truthy_str target) then s
      else
        let dateParts := map JS.parseInt (JS.split "-" (JS.trim (reminderDateText s))) in
        let timeParts := map JS.parseInt (JS.split ":" (JS.trim (reminderTimeText s))) in
        if negb (length dateParts =? 3)%nat || negb (length timeParts =? 2)%nat
           || existsb JS.isNaN dateParts || existsb JS.isNaN timeParts
        then setEnv (alert BadDateTime) s
        else
          match dateParts, timeParts with
          | [y; m; d], [hh; mm] =>
              let dt := makeDateFromBeijingParts (env s) y m d hh mm in
              if JS.le (JS.getTime dt) (JS.Num (now (env s)))
              then setEnv (alert NotFuture) s
              else setReminderModalVisible false (scheduleReminder (todos s) target dt s)
          | _, _ => s
          end
  end.

(** ** The screen as a transition system *)

Inductive Event : Type :=
  | TypeDraft (text : string)
  | Add
  | Delete (todoId : string)
  | Toggle (todoId : string)
  | StartEdit (todoId : string)
  | TypeEdit (text : string)
  | SaveEdit
  | CancelEdit
  | CompleteAll
  | DeleteAll (ok : bool)
  | ClearCompleted
  | OpenPicker (todoId : string)
  | TypeDate (text : string)
  | TypeTime (text : string)
  | Confirm
  | CloseModal
  | ClearReminder (todoId : string)
  | Fire (h : positive)
  | Tick (dt : Z).

(** [StartEdit] comes from the pencil button of a listed task and passes
    that task's title; time only moves forward. *)
Definition step (ev : Event) (s : State) : State :=
  match ev with
  | TypeDraft text => setDraftTitle text s
  | Add => handleAddTodo s
  | Delete todoId => handleDeleteTodo todoId s
  | Toggle todoId => toggleComplete todoId s
  | StartEdit todoId =>
      match find_todo todoId (todos s) with
      | Some t => startEdit todoId (title t) s
      | None => s
      end
  | TypeEdit text => setEditingText text s
  | SaveEdit => saveEdit s
  | CancelEdit => cancelEdit s
  | CompleteAll => completeAll s
  | DeleteAll ok => deleteAll ok s
  | ClearCompleted => clearCompleted s
  | OpenPicker todoId => openReminderPicker todoId s
  | TypeDate text => setReminderDateText text s
  | TypeTime text => setReminderTimeText text s
  | Confirm => confirmReminder s
  | CloseModal => setReminderModalVisible false s
  | ClearReminder todoId => clearReminder (todos s) todoId s
  | Fire h => fireTimer h s
  | Tick dt => if 0 <=? dt then setEnv (advance dt) s else s
  end.

Definition run (evs : list Event) (s : State) : State :=
  fold_left (fun acc ev => step ev acc) evs s.

(** The screen as mounted: every [useState] at its initial value, no
    timer, nothing scheduled. *)
Definition initEnv (e : JS.Engine) (os : OS) (notif granted grants : bool) (t0 : Z) : Env :=
  mkEnv e os notif granted grants ∅ 0 ∅ 1%positive t0 [].

Definition init (e : Env) : State :=
  mkState [] "" None "" false "" "" None ∅ e.

(** ** Notions used in the statements *)

(** What a state updater leaves alone. *)
Definition same_identity (t t' : TodoItem) : Prop :=
  id t' = id t /\ reminderTimestamp t' = reminderTimestamp t
  /\ notificationId t' = notificationId t.

(** A task that carries a handle carries a reminder time. *)
Definition handle_has_time (t : TodoItem) : Prop :=
  JS.present (notificationId t) = true -> JS.present (reminderTimestamp t) = true.

Definition reminder_inv (l : list TodoItem) : Prop := Forall handle_has_time l.

(** [s'] holds no trigger that [s] did not hold, and a timer whose entry
    left the table has been stopped. *)
Definition shrinks (s s' : State) : Prop :=
  webTimers s' ⊆ webTimers s
  /\ timers (env s') ⊆ timers (env s)
  /\ scheduled (env s') ⊆ scheduled (env s)
  /\ hasNotifications (env s') = hasNotifications (env s)
  /\ (forall j h, webTimers s !! j = Some h -> webTimers s' !! j = None ->
        timers (env s') !! h = None).


(** The notification half of [cancelTriggers], on its own. *)
Definition cancelNotification (closure : list TodoItem) (todoId : string) (s : State) : State :=
  match find_todo todoId closure with
  | Some todo =>
      match notificationId todo with
      | JS.Val h =>
          if JS.truthy_str h && hasNotifications (env s)
          then setEnv (cancelScheduledNotificationAsync h) s
          else s
      | _ => s
      end
  | None => s
  end.

(** A browser at 2025-01-01 00:00 UTC, and a device at the same instant
    with the notification service present and permitted. *)
Definition sample_env : Env :=
  initEnv (JS.mkEngine true (fun _ => JS.NaN)) web false false false 1735689600000.

(** One task with a reminder armed for 2025-01-02 09:30 Beijing time,
    the clock standing at 2025-01-01 00:00 UTC. *)
Definition arm_one : list Event :=
  [TypeDraft "Buy milk"; Add; OpenPicker "1735689600000";
   TypeDate "2025-01-02"; TypeTime "09:30"; Confirm].

Definition native_env : Env :=
  initEnv (JS.mkEngine true (fun _ => JS.NaN)) android true true true 1735689600000.

(** [p] holds of the [n] integers from [z] on. *)
Fixpoint all_from (n : nat) (z : Z) (p : Z -> bool) : bool :=
  match n with
  | O => true
  | S k => p z && all_from k (Z.succ z) p
  end.

(** What [civil_from_days] computes from the day [doe] of a 400-year era:
    year of era, month and day are in range, the day exists in the month,
    and up to day 146036 adding the January and February carry stays
    inside the era. *)
Definition era_day_ok (doe : Z) : bool :=
  let yoe := (doe - doe / 1460 + doe / 36524 - doe / 146096) / 365 in
  let doy := doe - (365 * yoe + yoe / 4 - yoe / 100) in
  let mp := (5 * doy + 2) / 153 in
  let d := doy - (153 * mp + 2) / 5 + 1 in
  let m := if mp <? 10 then mp + 3 else mp - 9 in
  let yy := yoe + (if m <=? 2 then 1 else 0) in
  (0 <=? yoe) && (yoe <=? 399) && (0 <=? mp) && (mp <=? 11)
  && (1 <=? d) && (d <=? JS.daysInMonth yy m)
  && ((146036 <? doe) || (yy <=? 399)).

(** The printed year, and the padded field, read back as themselves. *)
Definition year_string_ok (y : Z) : bool :=
  match JS.read_year (JS.String_of (JS.Num y)) with
  | Some (v, EmptyString) => v =? y
  | _ => false
  end.

Definition pad_string_ok (n : Z) : bool :=
  match JS.read_digits 2 0 (pad2 (JS.Num n)) with
  | Some (v, EmptyString) => v =? n
  | _ => false
  end.

(** [fromCivil(toCivil(t))]: the parts of [t] given back to
    [makeDateFromBeijingParts]. *)
Definition roundTrip (e : Env) (t : Z) : JS.num :=
  let p := getBeijingParts e (JS.Val (JS.Num t)) in
  JS.getTime (makeDateFromBeijingParts e (year p) (month p) (day p) (hour p) (minute p)).

(** ** The rest of the screen *)







(** The table of page timers [W] and the pending timers [T] of the event
    loop match one to one, and handles from [n] on are unused. *)
Definition timers_match_on (W : gmap string positive) (T : gmap positive Timer)
    (n : positive) : Prop :=
  (forall h tm, T !! h = Some tm -> W !! timer_todo tm = Some h)
  /\ (forall i h, W !! i = Some h -> exists tm, T !! h = Some tm /\ timer_todo tm = i)
  /\ (forall h tm, T !! h = Some tm -> (h < n)%positive).

Definition timers_match (s : State) : Prop :=
  timers_match_on (webTimers s) (timers (env s)) (nextTimer (env s)).

(** A title as the store keeps it: not empty, no white space around. *)
Definition title_ok (t : TodoItem) : Prop :=
  title t <> "" /\ JS.trim (title t) = title t.

(** The day of a 400-year era (counted from 1 March) on which the date
    with year of era [yoe], month [m] and day [d] falls, as [MakeDay]
    computes it, and the date read off such a day, as the getters do. *)
Definition doe_of_civil (yoe m d : Z) : Z :=
  let mp := if 2 <? m then m - 3 else m + 9 in
  let doy := (153 * mp + 2) / 5 + d - 1 in
  yoe * 365 + yoe / 4 - yoe / 100 + doy.

Definition civil_of_doe (doe : Z) : Z * Z * Z :=
  let yoe := (doe - doe / 1460 + doe / 36524 - doe / 146096) / 365 in
  let doy := doe - (365 * yoe + yoe / 4 - yoe / 100) in
  let mp := (5 * doy + 2) / 153 in
  let d := doy - (153 * mp + 2) / 5 + 1 in
  let m := if mp <? 10 then mp + 3 else mp - 9 in
  (yoe, m, d).

(** The [n]-th of the 400 * 12 * 31 combinations of a year of era, a month
    and a day number: when the day exists in the month, the date falls
    inside the era and is read back from its day. *)
Definition era_date_ok (n : Z) : bool :=
  let yoe := n / 372 in
  let m := (n / 31) mod 12 + 1 in
  let d := n mod 31 + 1 in
  let c := if m <=? 2 then 1 else 0 in
  let doe := doe_of_civil yoe m d in
  negb (d <=? JS.daysInMonth (yoe + c) m)
  || ((0 <=? doe) && (doe <? 146097)
      && match civil_of_doe doe with
         | (yoe', m', d') => (yoe' =? yoe) && (m' =? m) && (d' =? d)
         end).

(** [pad2] of [n]: two characters that read back as [n], whether as
    digits of a date string or through [parseInt]. *)
Definition pad_field_ok (n : Z) : bool :=
  (String.length (pad2 (JS.Num n)) =? 2)%nat
  && match JS.read_digits 2 0 (pad2 (JS.Num n)) with
     | Some (v, EmptyString) => v =? n
     | _ => false
     end
  && match JS.parseInt (pad2 (JS.Num n)) with
     | JS.Num v => v =? n
     | JS.NaN => false
     end.

(** Every character of [s] satisfies [p]. *)
Fixpoint all_chars (p : ascii -> bool) (s : string) : bool :=
  match s with
  | EmptyString => true
  | String c r => p c && all_chars p r
  end.

(** A character that is neither white space nor one of the two
    separators of the reminder fields. *)
Definition plain_char (c : ascii) : bool :=
  negb (JS.isWhiteSpace c) && negb (Ascii.eqb c "-") && negb (Ascii.eqb c ":").

(** The printed year and the padded fields are made of plain characters
    and [parseInt] reads them back. *)
Definition year_text_ok (y : Z) : bool :=
  all_chars plain_char (JS.String_of (JS.Num y))
  && match JS.parseInt (JS.String_of (JS.Num y)) with
     | JS.Num v => v =? y
     | JS.NaN => false
     end.

Definition pad_text_ok (n : Z) : bool :=
  all_chars plain_char (pad2 (JS.Num n))
  && match JS.parseInt (pad2 (JS.Num n)) with
     | JS.Num v => v =? n
     | JS.NaN => false
     end.

(** The texts a date and a time of day are written as in the two fields
    of the reminder dialog. *)
Definition date_text (y m d : Z) : string :=
  JS.String_of (JS.Num y) ++ "-" ++ pad2 (JS.Num m) ++ "-" ++ pad2 (JS.Num d).

Definition time_text (hh mm : Z) : string :=
  pad2 (JS.Num hh) ++ ":" ++ pad2 (JS.Num mm).

(** The instant of a civil date and time of day at +08:00. *)
Definition civil_instant (y m d hh mm : Z) : Z :=
  JS.days_from_civil y m d * JS.msPerDay + hh * JS.msPerHour + mm * JS.msPerMinute
  - 28800000.

(** * Properties *)

(** ** The runtime on examples *)

Example civil_epoch : JS.civil_from_days 0 = (1970, 1, 1).
Proof. reflexivity. Qed.

Example parse_example :
  JS.Date_parse (JS.mkEngine true (fun _ => JS.NaN)) "2025-01-01T09:30:00+08:00"
  = JS.Num 1735695000000.
Proof. vm_compute. reflexivity. Qed.

Example parseInt_examples :
  map JS.parseInt ["2025"; " 09"; "-3"; "12abc"; "abc"; ""; "+7"]
  = [JS.Num 2025; JS.Num 9; JS.Num (-3); JS.Num 12; JS.NaN; JS.NaN; JS.Num 7].
Proof. reflexivity. Qed.

Example split_examples :
  JS.split "-" "2025-02-30" = ["2025"; "02"; "30"] /\ JS.split "-" "" = [""] /\
  JS.split ":" "9:30:" = ["9"; "30"; ""].
Proof. repeat split. Qed.

Example trim_examples : JS.trim "  a b  " = "a b" /\ JS.trim "   " = "".
Proof. split; reflexivity. Qed.

(** Running one more event. *)
Lemma run_snoc (evs : list Event) (ev : Event) (s : State) :
  run (evs ++ [ev]) s = step ev (run evs s).
Proof. unfold run. now rewrite fold_left_app. Qed.

(** ** The task store *)

Lemma Forall2_map_same {A} (R : A -> A -> Prop) (f : A -> A) (l : list A) :
  (forall x, R x (f x)) -> Forall2 R l (map f l).
Proof.
  intros HR. induction l as [|x l IH]; simpl; constructor; auto.
Qed.

(** C7.  [add(title)]: when the trimmed title is empty the state is left
    as it was; otherwise exactly one task is put in front of the list, the
    trimmed title on it, not completed, with no reminder, and the tasks
    already listed follow it unchanged. *)
Theorem add_prepends_one_or_nothing (s : State) (text : string) :
  let s0 := setDraftTitle text s in
  let s' := handleAddTodo s0 in
  match JS.trim text with
  | EmptyString => s' = s0
  | String _ _ =>
      exists t,
        todos s' = t :: todos s
        /\ length (todos s') = S (length (todos s))
        /\ title t = JS.trim text
        /\ completed t = false
        /\ JS.orNull (reminderTimestamp t) = JS.Null
        /\ JS.orNull (notificationId t) = JS.Null
  end.
Proof.
  intros s0 s'. unfold s', s0, handleAddTodo. simpl.
  destruct (JS.trim text) as [|c r] eqn:E; simpl.
  - reflexivity.
  - eexists. repeat split.
Qed.

(** C8.  [commitEdit]: after [beginEdit] on a task and any typing, saving
    a text whose trimmed form is empty leaves the whole list as it was
    before [beginEdit]; saving any other text puts the trimmed text as the
    title of the task under edit and changes nothing else: every other
    field of that task and every other task stay as they were, in the
    same order. *)
Theorem commitEdit_title (s : State) (eid current text : string) :
  eid <> "" ->
  let s' := saveEdit (setEditingText text (startEdit eid current s)) in
  editingId s' = None /\
  match JS.trim text with
  | EmptyString => todos s' = todos s
  | String _ _ =>
      Forall2 (fun t t' =>
                 same_identity t t' /\ completed t' = completed t
                 /\ title t' = if String.eqb (id t) eid then JS.trim text else title t)
        (todos s) (todos s')
  end.
Proof.
  intros Hne s'. unfold s', saveEdit. simpl.
  destruct eid as [|c0 r0]; [congruence|]. simpl.
  destruct (JS.trim text) as [|c r] eqn:E; simpl.
  - split; reflexivity.
  - split; [reflexivity|].
    apply Forall2_map_same. intros t. unfold same_identity.
    destruct (String.eqb (id t) (String c0 r0)); simpl; auto.
Qed.

Lemma commitEdit_title_witness :
  "7" <> "" /\
  let s := mkState [mkTodo "7" "old" false JS.Undefined JS.Undefined] "" None ""
             false "" "" None ∅
             (initEnv (JS.mkEngine true (fun _ => JS.NaN)) web false false false 0) in
  let s' := saveEdit (setEditingText " new " (startEdit "7" "old" s)) in
  editingId s' = None /\
  match JS.trim " new " with
  | EmptyString => todos s' = todos s
  | String _ _ =>
      Forall2 (fun t t' =>
                 same_identity t t' /\ completed t' = completed t
                 /\ title t' = if String.eqb (id t) "7" then JS.trim " new " else title t)
        (todos s) (todos s')
  end.
Proof.
  split; [discriminate|].
  intros s. apply (commitEdit_title s "7" "old" " new "). discriminate.
Defined.

(** C9.  [completeAll] marks every task completed and keeps, position by
    position, each task's id, title, reminder time and handle; the list
    keeps its length and its order. *)
Theorem completeAll_frame (s : State) :
  length (todos (completeAll s)) = length (todos s) /\
  Forall2 (fun t t' =>
             completed t' = true /\ same_identity t t' /\ title t' = title t)
    (todos s) (todos (completeAll s)).
Proof.
  unfold completeAll. simpl. split.
  - apply length_map.
  - apply Forall2_map_same. intros t. unfold same_identity. simpl. auto.
Qed.

Lemma filter_length_le {A} (p : A -> bool) (l : list A) :
  (length (List.filter p l) <= length l)%nat.
Proof.
  induction l as [|x l IH]; simpl; [lia|]. destruct (p x); simpl; lia.
Qed.

(** C10.  The counters add up, [total = completedCount + pendingCount]
    with [0 <= completedCount <= total]; the percentage is the constant 0
    on the empty list, and whenever the quotient is computed its divisor
    is the non-zero [total]. *)
Theorem counters_consistent (s : State) :
  total s = completedCount s + pendingCount s
  /\ 0 <= completedCount s <= total s
  /\ percent (setTodos (fun _ => []) s) = Zero
  /\ match percent s with
     | Zero => todos s = []
     | RoundRatio c t => c = completedCount s /\ t = total s /\ t <> 0
     end.
Proof.
  unfold pendingCount, percent, total, completedCount.
  pose proof (filter_length_le completed (todos s)) as Hle.
  repeat split; try lia; try reflexivity.
  destruct (Z.of_nat (length (todos s)) =? 0) eqn:E.
  - apply Z.eqb_eq in E. destruct (todos s); [reflexivity|simpl in E; lia].
  - apply Z.eqb_neq in E. repeat split; assumption.
Qed.

(** ** The reminder fields *)

Lemma todos_cancelTriggers closure todoId s :
  todos (cancelTriggers closure todoId s) = todos s.
Proof.
  unfold cancelTriggers.
  destruct (find_todo todoId closure) as [todo|]; simpl.
  - destruct (notificationId todo) as [| |h]; simpl;
      try (destruct (webTimers s !! todoId); reflexivity).
    destruct (JS.truthy_str h && hasNotifications (env s)); simpl;
      destruct (webTimers s !! todoId); reflexivity.
  - destruct (webTimers s !! todoId); reflexivity.
Qed.

Lemma todos_clearReminder closure todoId s :
  todos (clearReminder closure todoId s) = resetReminder todoId (todos s).
Proof.
  unfold clearReminder. simpl. now rewrite todos_cancelTriggers.
Qed.

Lemma reminder_inv_map (f : TodoItem -> TodoItem) (l : list TodoItem) :
  (forall t, handle_has_time t -> handle_has_time (f t)) ->
  reminder_inv l -> reminder_inv (map f l).
Proof.
  intros Hf H. induction H; simpl; constructor; auto.
Qed.

Lemma reminder_inv_filter (p : TodoItem -> bool) (l : list TodoItem) :
  reminder_inv l -> reminder_inv (List.filter p l).
Proof.
  intros H. induction H as [|t l Ht Hl IH]; simpl; [constructor|].
  destruct (p t); [constructor|]; assumption.
Qed.

Lemma reminder_inv_reset todoId l :
  reminder_inv l -> reminder_inv (resetReminder todoId l).
Proof.
  apply reminder_inv_map. intros t Ht.
  destruct (String.eqb (id t) todoId); [|exact Ht].
  intros H. discriminate H.
Qed.

Lemma reminder_inv_record todoId ts n l :
  reminder_inv l -> reminder_inv (recordReminder todoId ts n l).
Proof.
  apply reminder_inv_map. intros t Ht.
  destruct (String.eqb (id t) todoId); [|exact Ht].
  intros _. reflexivity.
Qed.

Create HintDb reminders.

#[local] Hint Resolve reminder_inv_reset reminder_inv_record reminder_inv_filter : reminders.

Lemma reminder_inv_scheduleReminder closure todoId date s :
  reminder_inv (todos s) -> reminder_inv (todos (scheduleReminder closure todoId date s)).
Proof.
  intros H. unfold scheduleReminder.
  set (s1 := clearReminder closure todoId s).
  assert (H1 : reminder_inv (todos s1))
    by (unfold s1; rewrite todos_clearReminder; auto with reminders).
  destruct (hasNotifications (env s1) && negb (is_web (platformOS (env s1)))).
  - destruct (ensurePermission (env s1)) as [ok e1].
    destruct ok; simpl; auto with reminders.
  - simpl. auto with reminders.
Qed.

Lemma todos_fold_cancel closure (l : list TodoItem) s :
  todos (fold_left (fun acc t => cancelTriggers closure (id t) acc) l s) = todos s.
Proof.
  revert s. induction l as [|t l IH]; intros s; simpl; [reflexivity|].
  rewrite IH. apply todos_cancelTriggers.
Qed.

Lemma todos_fold_reset (l : list TodoItem) s :
  todos (fold_left (fun acc t => setTodos (resetReminder (id t)) acc) l s)
  = fold_left (fun acc t => resetReminder (id t) acc) l (todos s).
Proof.
  revert s. induction l as [|t l IH]; intros s; simpl; [reflexivity|].
  now rewrite IH.
Qed.

Lemma reminder_inv_fold_reset (l : list TodoItem) acc :
  reminder_inv acc ->
  reminder_inv (fold_left (fun acc t => resetReminder (id t) acc) l acc).
Proof.
  revert acc. induction l as [|t l IH]; intros acc H; simpl; auto with reminders.
Qed.

Lemma todos_clearCompleted s :
  todos (clearCompleted s)
  = fold_left (fun acc t => resetReminder (id t) acc)
      (List.filter completed (todos s))
      (List.filter (fun t => negb (completed t)) (todos s)).
Proof.
  unfold clearCompleted. rewrite todos_fold_reset. simpl.
  now rewrite todos_fold_cancel.
Qed.

Lemma reminder_inv_confirmReminder s :
  reminder_inv (todos s) -> reminder_inv (todos (confirmReminder s)).
Proof.
  intros H. unfold confirmReminder.
  destruct (reminderTargetId s) as [target|]; [|exact H].
  destruct (negb (JS.truthy_str target)); [exact H|].
  match goal with |- context [if ?b then _ else _] => destruct b end; [exact H|].
  destruct (map JS.parseInt (JS.split "-" (JS.trim (reminderDateText s))))
    as [|y [|m [|d [|? ?]]]]; try exact H.
  destruct (map JS.parseInt (JS.split ":" (JS.trim (reminderTimeText s))))
    as [|hh [|mm [|? ?]]]; try exact H.
  match goal with |- context [if ?b then _ else _] => destruct b end; [exact H|].
  simpl. now apply reminder_inv_scheduleReminder.
Qed.

Lemma reminder_inv_step ev s :
  reminder_inv (todos s) -> reminder_inv (todos (step ev s)).
Proof.
  intros H. destruct ev; cbn [step]; try exact H.
  - unfold handleAddTodo.
    destruct (String.length (JS.trim (draftTitle s)) =? 0)%nat; [exact H|].
    cbn [setDraftTitle setTodos todos]. constructor; [|exact H].
    intros Hp. discriminate Hp.
  - unfold handleDeleteTodo. cbn [setTodos todos].
    rewrite todos_clearReminder. auto with reminders.
  - unfold toggleComplete. cbn [setTodos todos].
    apply reminder_inv_map; [|exact H]. intros t Ht.
    destruct (String.eqb (id t) todoId); exact Ht.
  - destruct (find_todo todoId (todos s)); exact H.
  - unfold saveEdit. destruct (editingId s) as [eid|]; [|exact H].
    destruct (negb (JS.truthy_str eid)); [exact H|].
    destruct (String.length (JS.trim (editingText s)) =? 0)%nat; [exact H|].
    cbn [setEditingText setEditingId setTodos todos].
    apply reminder_inv_map; [|exact H]. intros t Ht.
    destruct (String.eqb (id t) eid); exact Ht.
  - unfold completeAll. cbn [setTodos todos].
    apply reminder_inv_map; [|exact H]. intros t Ht. exact Ht.
  - destruct ok; [constructor|exact H].
  - rewrite todos_clearCompleted. apply reminder_inv_fold_reset. auto with reminders.
  - now apply reminder_inv_confirmReminder.
  - rewrite todos_clearReminder. auto with reminders.
  - unfold fireTimer. destruct (timers (env s) !! h) as [tm|]; [|exact H].
    destruct (JS.lt (JS.Num (now (env s))) (timer_due tm)); [exact H|].
    rewrite todos_clearReminder. auto with reminders.
  - destruct (0 <=? dt); exact H.
Qed.

(** C5.  A handle never stands without a reminder time: every event of
    the screen (add, toggle, edit, delete, clear completed, delete all,
    complete all, arming and cancelling a reminder, a timer going off)
    keeps the property, so it holds of every task in every state reached
    from the mounted screen. *)
Theorem handle_only_with_time (e0 : Env) (evs : list Event) :
  let s := run evs (init e0) in
  reminder_inv (todos s)
  /\ forall ev, reminder_inv (todos (step ev s)).
Proof.
  intros s.
  assert (H : reminder_inv (todos s)).
  { unfold s. induction evs as [|ev evs IH] using rev_ind; [constructor|].
    rewrite run_snoc. now apply reminder_inv_step. }
  split; [exact H|]. intros ev. now apply reminder_inv_step.
Qed.

(** ** Clearing the completed tasks *)

Lemma shrinks_refl s : shrinks s s.
Proof.
  repeat split; try reflexivity. intros j h H1 H2. congruence.
Qed.

Lemma shrinks_trans s1 s2 s3 : shrinks s1 s2 -> shrinks s2 s3 -> shrinks s1 s3.
Proof.
  intros (A1 & B1 & C1 & D1 & E1) (A2 & B2 & C2 & D2 & E2).
  split; [etransitivity; eassumption|].
  split; [etransitivity; eassumption|].
  split; [etransitivity; eassumption|].
  split; [congruence|].
  intros j h H1 H3.
  destruct (webTimers s2 !! j) as [h'|] eqn:H2.
  - pose proof (lookup_weaken _ _ _ _ H2 A1) as H1'.
    rewrite H1 in H1'. injection H1' as <-. eauto.
  - eapply lookup_weaken_None; [|exact B2]. eauto.
Qed.


Lemma cancelTriggers_unfold closure todoId s :
  cancelTriggers closure todoId s =
  let s1 := cancelNotification closure todoId s in
  match webTimers s1 !! todoId with
  | Some h => setWebTimers (delete todoId) (setEnv (clearTimeout h) s1)
  | None => s1
  end.
Proof. reflexivity. Qed.

Lemma cancelNotification_shrinks closure todoId s :
  shrinks s (cancelNotification closure todoId s)
  /\ webTimers (cancelNotification closure todoId s) = webTimers s
  /\ timers (env (cancelNotification closure todoId s)) = timers (env s).
Proof.
  unfold cancelNotification.
  destruct (find_todo todoId closure) as [todo|];
    [|split; [apply shrinks_refl|split; reflexivity]].
  destruct (notificationId todo) as [| |h];
    try (split; [apply shrinks_refl|split; reflexivity]).
  destruct (JS.truthy_str h && hasNotifications (env s));
    [|split; [apply shrinks_refl|split; reflexivity]].
  split; [|split; reflexivity].
  split; [reflexivity|]. split; [reflexivity|].
  split; [apply delete_subseteq|]. split; [reflexivity|].
  simpl. intros j h' H1 H2. congruence.
Qed.

Lemma cancelTriggers_shrinks closure todoId s :
  shrinks s (cancelTriggers closure todoId s).
Proof.
  rewrite cancelTriggers_unfold. cbv zeta.
  destruct (cancelNotification_shrinks closure todoId s) as (Hs & _ & _).
  destruct (webTimers (cancelNotification closure todoId s) !! todoId) as [h|] eqn:Hw;
    [|exact Hs].
  eapply shrinks_trans; [exact Hs|].
  split; [apply delete_subseteq|]. split; [apply delete_subseteq|].
  split; [reflexivity|]. split; [reflexivity|].
  simpl. intros j h' H1 H2.
  apply lookup_delete_None in H2 as [<-|H2]; [|congruence].
  rewrite Hw in H1. injection H1 as <-. apply lookup_delete_eq.
Qed.

Lemma truthy_str_true (h : string) : h <> "" -> JS.truthy_str h = true.
Proof. destruct h; [congruence|reflexivity]. Qed.





Lemma resetReminder_absent todoId (l : list TodoItem) :
  (forall t, In t l -> id t <> todoId) -> resetReminder todoId l = l.
Proof.
  unfold resetReminder. induction l as [|x l IH]; intros H; simpl; [reflexivity|].
  rewrite IH by (intros t Ht; apply H; now right).
  destruct (String.eqb (id x) todoId) eqn:E; [|reflexivity].
  apply String.eqb_eq in E. exfalso. apply (H x); [now left|exact E].
Qed.



Lemma env_fold_reset (l : list TodoItem) s :
  env (fold_left (fun acc t => setTodos (resetReminder (id t)) acc) l s) = env s
  /\ webTimers (fold_left (fun acc t => setTodos (resetReminder (id t)) acc) l s)
     = webTimers s.
Proof.
  revert s. induction l as [|t l IH]; intros s; simpl; [split; reflexivity|].
  destruct (IH (setTodos (resetReminder (id t)) s)) as [-> ->]. split; reflexivity.
Qed.



(** ** Deleting the whole list *)

(** C1.  [deleteAll] empties the list and cancels nothing.  On the web the
    page timer of the deleted task is still pending and still registered;
    on a device the notification of its handle is still scheduled.
    Deleting the same task with [handleDeleteTodo] stops both. *)
Theorem deleteAll_leaves_triggers_armed :
  let w := run arm_one (init sample_env) in
  let n := run arm_one (init native_env) in
  (map notificationId (todos w) = [JS.Null]
   /\ todos (deleteAll true w) = []
   /\ webTimers (deleteAll true w) !! "1735689600000" = Some 1%positive
   /\ timer_todo <$> timers (env (deleteAll true w)) !! 1%positive = Some "1735689600000"
   /\ timers (env (handleDeleteTodo "1735689600000" w)) !! 1%positive = None)
  /\
  (map notificationId (todos n) = [JS.Val "n0"]
   /\ todos (deleteAll true n) = []
   /\ n_date <$> scheduled (env (deleteAll true n)) !! "n0" = Some (JS.Num 1735781400000)
   /\ scheduled (env (handleDeleteTodo "1735689600000" n)) !! "n0" = None).
Proof.
  vm_compute. repeat split.
Qed.

(** ** Identifiers *)

(** C3.  Two tasks added while the clock shows the same millisecond get
    the same id: the list reached by adding "a" and then "b" without the
    clock moving holds two tasks whose ids are equal. *)
Theorem same_tick_adds_share_id :
  let s := run [TypeDraft "a"; Add; TypeDraft "b"; Add] (init sample_env) in
  map title (todos s) = ["b"; "a"]
  /\ map id (todos s) = ["1735689600000"; "1735689600000"]
  /\ ~ NoDup (map id (todos s)).
Proof.
  split; [reflexivity|]. split; [reflexivity|].
  intros H. apply (bool_decide_pack _) in H. vm_compute in H. exact H.
Qed.

(** Where the clock has moved on since every listed task was added, the
    id of a new task is new. *)
Lemma String_of_inj (a b : Z) :
  JS.String_of (JS.Num a) = JS.String_of (JS.Num b) -> a = b.
Proof.
  unfold JS.String_of. intros H. apply DecimalZ.to_int_inj.
  assert (Hnn : forall z, Z.to_int z <> Decimal.Pos Decimal.Nil
                          /\ Z.to_int z <> Decimal.Neg Decimal.Nil).
  { intros [|p|p]; simpl; split; try discriminate; intros E; injection E as E;
      revert E; apply DecimalPos.Unsigned.to_uint_nonnil. }
  pose proof (NilZero.isi (Z.to_int a) (proj1 (Hnn a)) (proj2 (Hnn a))) as Ha.
  pose proof (NilZero.isi (Z.to_int b) (proj1 (Hnn b)) (proj2 (Hnn b))) as Hb.
  rewrite H in Ha. congruence.
Qed.

Lemma add_after_tick_fresh_id (s : State) :
  (forall t, In t (todos s) ->
             exists k, id t = JS.String_of (JS.Num k) /\ k < now (env s)) ->
  NoDup (map id (todos s)) ->
  NoDup (map id (todos (handleAddTodo s))).
Proof.
  intros Hold Hnd. unfold handleAddTodo.
  destruct (String.length (JS.trim (draftTitle s)) =? 0)%nat; [exact Hnd|].
  cbn [setDraftTitle setTodos todos map id]. apply NoDup_cons. split; [|exact Hnd].
  intros Hin. apply list_elem_of_In, in_map_iff in Hin as (t & Hid & Ht).
  destruct (Hold t Ht) as (k & Hk & Hlt). rewrite Hk in Hid.
  apply String_of_inj in Hid. lia.
Qed.

(** ** Validation of a reminder request *)

(** The two rejections of the confirm button: input that does not give
    three and two integers, and a valid instant that is not after the
    clock.  Both show a message and leave everything else as it was. *)
Lemma confirm_rejects_malformed (s : State) (target : string) :
  reminderTargetId s = Some target -> target <> "" ->
  let dateParts := map JS.parseInt (JS.split "-" (JS.trim (reminderDateText s))) in
  let timeParts := map JS.parseInt (JS.split ":" (JS.trim (reminderTimeText s))) in
  length dateParts <> 3%nat \/ length timeParts <> 2%nat
  \/ existsb JS.isNaN dateParts = true \/ existsb JS.isNaN timeParts = true ->
  confirmReminder s = setEnv (alert BadDateTime) s.
Proof.
  intros Ht Hne dateParts timeParts H. unfold confirmReminder.
  rewrite Ht, (truthy_str_true target Hne). simpl negb. cbv iota.
  fold dateParts timeParts.
  assert (E : negb (length dateParts =? 3)%nat || negb (length timeParts =? 2)%nat
              || existsb JS.isNaN dateParts || existsb JS.isNaN timeParts = true).
  { destruct H as [H|[H|[H|H]]].
    - apply Nat.eqb_neq in H. rewrite H. reflexivity.
    - apply Nat.eqb_neq in H. rewrite H. now rewrite orb_true_r.
    - rewrite H. now rewrite orb_true_r.
    - rewrite H. now rewrite orb_true_r. }
  now rewrite E.
Qed.

Lemma confirm_rejects_not_future (s : State) (target : string) (y m d hh mm : JS.num) (t : Z) :
  reminderTargetId s = Some target -> target <> "" ->
  map JS.parseInt (JS.split "-" (JS.trim (reminderDateText s))) = [y; m; d] ->
  map JS.parseInt (JS.split ":" (JS.trim (reminderTimeText s))) = [hh; mm] ->
  JS.getTime (makeDateFromBeijingParts (env s) y m d hh mm) = JS.Num t ->
  t <= now (env s) ->
  confirmReminder s = setEnv (alert NotFuture) s
  \/ confirmReminder s = setEnv (alert BadDateTime) s.
Proof.
  intros Ht Hne Hd Htm Hdt Hle. unfold confirmReminder.
  rewrite Ht, (truthy_str_true target Hne). simpl negb. cbv iota.
  rewrite Hd, Htm.
  match goal with |- context [if ?b then _ else _] => destruct b end; [now right|].
  rewrite Hdt. simpl. apply Z.leb_le in Hle. rewrite Hle. now left.
Qed.

(** C2.  The request "2025-02-30", "09:30", made at 2025-01-01 00:00 UTC
    for a listed task, is not rejected, whatever the engine does with day
    numbers the month does not have: no message is shown, a page timer is
    started and the task's reminder time is set, to 2025-03-02 09:30
    Beijing time where the engine carries the days over and to NaN where
    it refuses them. *)
Theorem february_30_is_accepted (strict : bool) (other : string -> JS.num) :
  let e := initEnv (JS.mkEngine strict other) web false false false 1735689600000 in
  let s0 := run [TypeDraft "Buy milk"; Add; OpenPicker "1735689600000";
                 TypeDate "2025-02-30"; TypeTime "09:30"] (init e) in
  let s := confirmReminder s0 in
  map reminderTimestamp (todos s0) = [JS.Undefined]
  /\ shown (env s) = []
  /\ map reminderTimestamp (todos s)
     = [JS.Val (if strict then JS.NaN else JS.Num 1740879000000)]
  /\ timer_todo <$> timers (env s) !! 1%positive = Some "1735689600000".
Proof.
  destruct strict; vm_compute; repeat split.
Qed.

(** ** Civil time *)

Lemma all_from_spec (n : nat) (z : Z) (p : Z -> bool) :
  all_from n z p = true -> forall x, z <= x < z + Z.of_nat n -> p x = true.
Proof.
  revert z. induction n as [|k IH]; intros z H x Hx; [lia|].
  simpl in H. apply andb_true_iff in H as [Hz Hrest].
  destruct (Z.eq_dec x z) as [->|Hne]; [exact Hz|].
  apply (IH (Z.succ z)); [exact Hrest|lia].
Qed.

Lemma era_days_ok : all_from (Z.to_nat 146097) 0 era_day_ok = true.
Proof. vm_cast_no_check (eq_refl true). Qed.

Lemma isLeap_era (yy era : Z) : JS.isLeap (yy + era * 400) = JS.isLeap yy.
Proof.
  unfold JS.isLeap.
  replace ((yy + era * 400) mod 4) with (yy mod 4)
    by (replace (era * 400) with (era * 100 * 4) by lia; now rewrite Z.mod_add).
  replace ((yy + era * 400) mod 100) with (yy mod 100)
    by (replace (era * 400) with (era * 4 * 100) by lia; now rewrite Z.mod_add).
  replace ((yy + era * 400) mod 400) with (yy mod 400)
    by (now rewrite Z.mod_add).
  reflexivity.
Qed.

Lemma daysInMonth_era (yy era m : Z) :
  JS.daysInMonth (yy + era * 400) m = JS.daysInMonth yy m.
Proof. unfold JS.daysInMonth. now rewrite isLeap_era. Qed.

Lemma andb_split (a b : bool) : a && b = true -> a = true /\ b = true.
Proof. apply andb_true_iff. Qed.

(** The date read off a day number names that day, its month is one of
    the twelve and its day exists in that month. *)
Lemma civil_of_days_inverse (z : Z) :
  let '(y, m, d) := JS.civil_from_days z in
  JS.days_from_civil y m d = z
  /\ 1 <= m <= 12 /\ 1 <= d <= JS.daysInMonth y m
  /\ (z + 719468) / 146097 * 400 <= y <= (z + 719468) / 146097 * 400 + 400
  /\ ((z + 719468) mod 146097 <= 146036 -> y <= (z + 719468) / 146097 * 400 + 399).
Proof.
  unfold JS.civil_from_days.
  set (era := (z + 719468) / 146097).
  set (doe := (z + 719468) mod 146097).
  assert (Hdoe : 0 <= doe < 146097) by (apply Z.mod_pos_bound; lia).
  assert (Hz : z + 719468 = 146097 * era + doe) by (apply Z.div_mod; lia).
  pose proof (all_from_spec _ _ _ era_days_ok doe) as Hok.
  rewrite Z2Nat.id in Hok by lia. specialize (Hok Hdoe).
  unfold era_day_ok in Hok.
  set (yoe := (doe - doe / 1460 + doe / 36524 - doe / 146096) / 365) in *.
  set (doy := doe - (365 * yoe + yoe / 4 - yoe / 100)) in *.
  set (mp := (5 * doy + 2) / 153) in *.
  set (d := doy - (153 * mp + 2) / 5 + 1) in *.
  set (m := if mp <? 10 then mp + 3 else mp - 9) in *.
  set (c := if m <=? 2 then 1 else 0) in *.
  cbv zeta in Hok.
  repeat (apply andb_split in Hok as [Hok ?]).
  assert (Hm : 1 <= m <= 12 /\ (if 2 <? m then m - 3 else m + 9) = mp
               /\ (if m <=? 2 then yoe + era * 400 + c - 1 else yoe + era * 400 + c)
                  = yoe + era * 400).
  { unfold c, m. destruct (mp <? 10) eqn:E.
    - apply Z.ltb_lt in E.
      destruct (mp + 3 <=? 2) eqn:E2; [apply Z.leb_le in E2; lia|].
      destruct (2 <? mp + 3) eqn:E3; [|apply Z.ltb_ge in E3; lia]. lia.
    - apply Z.ltb_ge in E.
      destruct (mp - 9 <=? 2) eqn:E2; [|apply Z.leb_gt in E2; lia].
      destruct (2 <? mp - 9) eqn:E3; [apply Z.ltb_lt in E3; lia|]. lia. }
  destruct Hm as (Hm & Hmp & Hy).
  split; [|split; [exact Hm|split; [|split]]].
  - unfold JS.days_from_civil. rewrite Hmp, Hy.
    assert (Hq : (yoe + era * 400) / 400 = era)
      by (rewrite Z.div_add by lia; rewrite Z.div_small by lia; lia).
    assert (Hr : (yoe + era * 400) mod 400 = yoe)
      by (rewrite Z.mod_add by lia; apply Z.mod_small; lia).
    rewrite Hq, Hr. unfold d, doy. lia.
  - replace (yoe + era * 400 + c) with (yoe + c + era * 400) by lia.
    rewrite daysInMonth_era. lia.
  - assert (0 <= c <= 1) by (unfold c; destruct (m <=? 2); lia). lia.
  - intros Hlast. fold c in H.
    destruct (146036 <? doe) eqn:E; [apply Z.ltb_lt in E; lia|].
    simpl in H. lia.
Qed.

Lemma daysInMonth_le_31 (y m : Z) : JS.daysInMonth y m <= 31.
Proof.
  unfold JS.daysInMonth.
  destruct (m =? 2); [destruct (JS.isLeap y); lia|].
  destruct (existsb (Z.eqb m) [4; 6; 9; 11]); lia.
Qed.

(** A whole number of minutes is its day, hour and minute put together. *)
Lemma minutes_recompose (T : Z) :
  T mod 60000 = 0 ->
  T / JS.msPerDay * JS.msPerDay + (T / JS.msPerHour) mod 24 * JS.msPerHour
  + (T / JS.msPerMinute) mod 60 * JS.msPerMinute = T.
Proof.
  unfold JS.msPerDay, JS.msPerHour, JS.msPerMinute. intros H.
  Z.div_mod_to_equations. lia.
Qed.

(** *** The string *)

Lemma read_digits_app (n : nat) (acc : Z) (s rest : string) (v : Z) (r : string) :
  JS.read_digits n acc s = Some (v, r) ->
  JS.read_digits n acc (s ++ rest) = Some (v, r ++ rest).
Proof.
  revert acc s. induction n as [|n IH]; intros acc s H; simpl in *.
  - injection H as <- <-. reflexivity.
  - destruct s as [|c s]; [discriminate|]. simpl.
    destruct (JS.digit_of c); [|discriminate]. now apply IH.
Qed.

Lemma read_year_app (s rest : string) (v : Z) (r : string) :
  JS.read_year s = Some (v, r) ->
  JS.read_year (s ++ rest) = Some (v, r ++ rest).
Proof.
  destruct s as [|c s]; [discriminate|].
  change (String c s ++ rest) with (String c (s ++ rest)).
  unfold JS.read_year.
  destruct (Ascii.eqb c "+"); [apply read_digits_app|].
  destruct (Ascii.eqb c "-"); [|apply (read_digits_app 4 0 (String c s))].
  destruct (JS.read_digits 6 0 s) as [[y r']|] eqn:E; [|discriminate].
  rewrite (read_digits_app _ _ _ rest _ _ E). simpl.
  destruct (y =? 0); [discriminate|]. intros H. injection H as <- <-. reflexivity.
Qed.

Lemma year_strings_ok : all_from (Z.to_nat 9000) 1000 year_string_ok = true.
Proof. vm_cast_no_check (eq_refl true). Qed.

Lemma pad_strings_ok : all_from (Z.to_nat 100) 0 pad_string_ok = true.
Proof. vm_cast_no_check (eq_refl true). Qed.

(** A year from 1000 to 9999 prints as the four digits the format reads. *)
Lemma read_year_iso (y : Z) (rest : string) :
  1000 <= y <= 9999 ->
  JS.read_year (JS.String_of (JS.Num y) ++ rest) = Some (y, rest).
Proof.
  intros Hy.
  pose proof (all_from_spec _ _ _ year_strings_ok y) as H.
  rewrite Z2Nat.id in H by lia. specialize (H ltac:(lia)).
  unfold year_string_ok in H.
  destruct (JS.read_year (JS.String_of (JS.Num y))) as [[v r]|] eqn:E; [|discriminate].
  destruct r; [|discriminate]. apply Z.eqb_eq in H. subst v.
  apply (read_year_app _ rest) in E. exact E.
Qed.

(** [pad2] of a number from 0 to 99 is the two digits the format reads. *)
Lemma read_pad2 (n : Z) (rest : string) :
  0 <= n <= 99 ->
  JS.read_digits 2 0 (pad2 (JS.Num n) ++ rest) = Some (n, rest).
Proof.
  intros Hn.
  pose proof (all_from_spec _ _ _ pad_strings_ok n) as H.
  rewrite Z2Nat.id in H by lia. specialize (H ltac:(lia)).
  unfold pad_string_ok in H.
  destruct (JS.read_digits 2 0 (pad2 (JS.Num n))) as [[v r]|] eqn:E; [|discriminate].
  destruct r; [|discriminate]. apply Z.eqb_eq in H. subst v.
  apply (read_digits_app _ _ _ rest) in E. exact E.
Qed.

Lemma expect_lit (c : ascii) (rest : string) :
  JS.expect c (String c "" ++ rest) = Some rest.
Proof. simpl. now rewrite Ascii.eqb_refl. Qed.

Lemma parse_iso_of_parts (y m d hh mm : Z) :
  1000 <= y <= 9999 -> 0 <= m <= 99 -> 0 <= d <= 99 -> 0 <= hh <= 99 -> 0 <= mm <= 99 ->
  JS.parse_format
    (iso_of_parts (JS.Num y) (JS.Num m) (JS.Num d) (JS.Num hh) (JS.Num mm))
  = Some (JS.mkFields y m d hh mm 0 480).
Proof.
  intros Hy Hm Hd Hhh Hmm.
  unfold iso_of_parts, JS.parse_format, mbind, option_bind.
  rewrite read_year_iso by exact Hy. cbv beta iota.
  rewrite expect_lit, read_pad2 by exact Hm. cbv beta iota.
  rewrite expect_lit, read_pad2 by exact Hd. cbv beta iota.
  rewrite expect_lit, read_pad2 by exact Hhh. cbv beta iota.
  rewrite expect_lit, read_pad2 by exact Hmm. cbv beta iota.
  reflexivity.
Qed.

(** *** The round trip *)

Lemma fields_in_bounds_civil (strict : bool) (y m d hh mm : Z) :
  1 <= m <= 12 -> 1 <= d <= JS.daysInMonth y m -> 0 <= hh <= 23 -> 0 <= mm <= 59 ->
  JS.fields_in_bounds strict (JS.mkFields y m d hh mm 0 480) = true.
Proof.
  intros Hm Hd Hhh Hmm. pose proof (daysInMonth_le_31 y m) as H31.
  unfold JS.fields_in_bounds. simpl.
  replace (1 <=? m) with true by (symmetry; apply Z.leb_le; lia).
  replace (m <=? 12) with true by (symmetry; apply Z.leb_le; lia).
  replace (1 <=? d) with true by (symmetry; apply Z.leb_le; lia).
  replace (d <=? 31) with true by (symmetry; apply Z.leb_le; lia).
  replace (d <=? JS.daysInMonth y m) with true by (symmetry; apply Z.leb_le; lia).
  replace (mm <=? 59) with true by (symmetry; apply Z.leb_le; lia).
  replace (hh <=? 23) with true by (symmetry; apply Z.leb_le; lia).
  now rewrite orb_true_r.
Qed.

Lemma round_trip_of_year (e : Env) (t y : Z) :
  t mod 60000 = 0 ->
  year (getBeijingParts e (JS.Val (JS.Num t))) = JS.Num y ->
  1000 <= y <= 9999 ->
  roundTrip e t = JS.Num t.
Proof.
  intros Hmin Hyear Hy. unfold roundTrip.
  unfold getBeijingParts in *. cbn [JS.add] in *.
  set (T := t + 8 * 60 * 60 * 1000) in *.
  unfold JS.Date_of_num, JS.TimeClip in *.
  destruct (Z.abs T <=? JS.maxTime); [|discriminate Hyear].
  unfold JS.getUTCFullYear, JS.getUTCMonth, JS.getUTCDate, JS.getUTCHours,
    JS.getUTCMinutes, JS.onTime in *.
  cbn [JS.getTime year month day hour minute JS.add] in *.
  pose proof (civil_of_days_inverse (T / JS.msPerDay)) as Hciv.
  destruct (JS.civil_from_days (T / JS.msPerDay)) as [[y' m'] d'].
  destruct Hciv as (Hinv & Hm & Hd & Hera & _).
  injection Hyear as ->.
  replace (m' - 1 + 1) with m' by lia.
  assert (HT : T mod 60000 = 0).
  { unfold T. replace (t + 8 * 60 * 60 * 1000) with (t + 480 * 60000) by lia.
    now rewrite Z.mod_add. }
  assert (Hhh : 0 <= (T / JS.msPerHour) mod 24 < 24) by (apply Z.mod_pos_bound; lia).
  assert (Hmm : 0 <= (T / JS.msPerMinute) mod 60 < 60) by (apply Z.mod_pos_bound; lia).
  pose proof (daysInMonth_le_31 y m') as H31.
  unfold makeDateFromBeijingParts, JS.Date_of_string, JS.Date_parse.
  cbn [JS.getTime].
  rewrite parse_iso_of_parts by lia.
  rewrite fields_in_bounds_civil by lia.
  unfold JS.time_of_fields. cbn [JS.f_year JS.f_month JS.f_day JS.f_hour JS.f_minute
                                  JS.f_second JS.f_offset].
  rewrite Hinv.
  pose proof (minutes_recompose T HT) as Hrec.
  replace (T / JS.msPerDay * JS.msPerDay + (T / JS.msPerHour) mod 24 * JS.msPerHour
           + (T / JS.msPerMinute) mod 60 * JS.msPerMinute + 0 * 1000
           - 480 * JS.msPerMinute) with t
    by (unfold JS.msPerMinute at 3; unfold T in Hrec |- *; lia).
  unfold JS.TimeClip.
  replace (Z.abs t <=? JS.maxTime) with true; [reflexivity|].
  symmetry. apply Z.leb_le.
  assert (Hdays : -427274 <= T / JS.msPerDay < 2932957).
  { pose proof (Z.div_mod (T / JS.msPerDay + 719468) 146097 ltac:(lia)) as Hdm.
    pose proof (Z.mod_pos_bound (T / JS.msPerDay + 719468) 146097 ltac:(lia)) as Hb.
    lia. }
  pose proof (Z.div_mod T JS.msPerDay ltac:(unfold JS.msPerDay; lia)) as HdT.
  pose proof (Z.mod_pos_bound T JS.msPerDay ltac:(unfold JS.msPerDay; lia)) as HbT.
  unfold JS.maxTime, JS.msPerDay in *. unfold T in *. lia.
Qed.

(** C4.  The round trip through Beijing civil time gives back every
    instant that is a whole number of minutes and whose Beijing civil year
    lies from 1000 to 9999, on every engine. *)
Theorem civil_round_trip (e : Env) (t y : Z) :
  t mod 60000 = 0 ->
  year (getBeijingParts e (JS.Val (JS.Num t))) = JS.Num y ->
  1000 <= y <= 9999 ->
  roundTrip e t = JS.Num t.
Proof. exact (round_trip_of_year e t y). Qed.

Lemma civil_round_trip_witness :
  1735695000000 mod 60000 = 0
  /\ year (getBeijingParts sample_env (JS.Val (JS.Num 1735695000000))) = JS.Num 2025
  /\ 1000 <= 2025 <= 9999
  /\ roundTrip sample_env 1735695000000 = JS.Num 1735695000000.
Proof.
  assert (H1 : 1735695000000 mod 60000 = 0) by reflexivity.
  assert (H2 : year (getBeijingParts sample_env (JS.Val (JS.Num 1735695000000)))
               = JS.Num 2025) by reflexivity.
  assert (H3 : 1000 <= 2025 <= 9999) by lia.
  split; [exact H1|]. split; [exact H2|]. split; [exact H3|].
  exact (civil_round_trip sample_env 1735695000000 2025 H1 H2 H3).
Defined.

Lemma year_of_parts (e : Env) (t : Z) :
  Z.abs (t + 28800000) <= JS.maxTime ->
  year (getBeijingParts e (JS.Val (JS.Num t)))
  = JS.Num (let '(y, _, _) := JS.civil_from_days ((t + 28800000) / JS.msPerDay) in y).
Proof.
  intros H. unfold getBeijingParts. cbn [JS.add year].
  change (8 * 60 * 60 * 1000) with 28800000.
  unfold JS.getUTCFullYear, JS.onTime, JS.Date_of_num, JS.TimeClip.
  apply Z.leb_le in H. rewrite H. reflexivity.
Qed.

(** In particular every whole minute from the epoch to the end of the
    Beijing civil year 9999 makes the round trip. *)
Lemma round_trip_since_epoch (e : Env) (t : Z) :
  t mod 60000 = 0 -> 0 <= t < 253402272000000 ->
  roundTrip e t = JS.Num t.
Proof.
  intros Hmin Ht.
  assert (Hclip : Z.abs (t + 28800000) <= JS.maxTime) by (unfold JS.maxTime; lia).
  pose proof (year_of_parts e t Hclip) as Hyear.
  pose proof (civil_of_days_inverse ((t + 28800000) / JS.msPerDay)) as Hciv.
  destruct (JS.civil_from_days ((t + 28800000) / JS.msPerDay)) as [[y m] d].
  destruct Hciv as (_ & _ & _ & Hera & Hlast).
  apply (round_trip_of_year e t y Hmin Hyear).
  set (z := (t + 28800000) / JS.msPerDay) in *.
  assert (Hz : 0 <= z <= 2932896).
  { unfold z, JS.msPerDay. split.
    - apply Z.div_pos; lia.
    - apply Z.lt_succ_r. apply Z.div_lt_upper_bound; lia. }
  pose proof (Z.div_mod (z + 719468) 146097 ltac:(lia)) as Hdm.
  pose proof (Z.mod_pos_bound (z + 719468) 146097 ltac:(lia)) as Hb.
  assert (Hq : 4 <= (z + 719468) / 146097 <= 24) by lia.
  split; [lia|].
  destruct (Z.eq_dec ((z + 719468) / 146097) 24) as [E|E]; [|lia].
  apply Z.le_trans with ((z + 719468) / 146097 * 400 + 399); [|lia].
  apply Hlast. lia.
Qed.

(** The law as the specification states it, for every instant, holds in
    no environment: the last two whole minutes a [Date] can hold have no
    civil parts (eight hours later is out of range), hence one and the
    same string, which cannot parse to both.  And where strings outside
    the format parse to NaN, the first minute of the civil year 10000
    already fails, its year printing as five digits. *)
Lemma civil_round_trip_not_universal :
  (~ exists e : Env,
       forall t : Z, Z.abs t <= JS.maxTime -> t mod 60000 = 0 ->
                     roundTrip e t = JS.Num t)
  /\ roundTrip sample_env 253402272000000 = JS.NaN.
Proof.
  split; [|vm_compute; reflexivity].
  intros [e H].
  pose proof (H 8640000000000000 ltac:(unfold JS.maxTime; lia) eq_refl) as H1.
  pose proof (H 8639999999940000 ltac:(unfold JS.maxTime; lia) eq_refl) as H2.
  vm_compute in H1, H2. rewrite H1 in H2. discriminate H2.
Qed.

(** * Further properties of the screen *)

(** ** Deleting and toggling *)

Lemma setTodos_same (f : list TodoItem -> list TodoItem) (s : State) :
  f (todos s) = todos s -> setTodos f s = s.
Proof. intros H. destruct s. unfold setTodos. simpl in *. now rewrite H. Qed.

Lemma filter_reset_other (i : string) (l : list TodoItem) :
  List.filter (fun t => negb (String.eqb (id t) i)) (resetReminder i l)
  = List.filter (fun t => negb (String.eqb (id t) i)) l.
Proof.
  unfold resetReminder. induction l as [|x l IH]; simpl; [reflexivity|].
  destruct (String.eqb (id x) i) eqn:E; simpl; rewrite E; simpl; now rewrite IH.
Qed.

Lemma cancelTriggers_timer closure i s :
  webTimers (cancelTriggers closure i s) !! i = None
  /\ forall h, webTimers s !! i = Some h ->
               timers (env (cancelTriggers closure i s)) !! h = None.
Proof.
  rewrite cancelTriggers_unfold. cbv zeta.
  destruct (cancelNotification_shrinks closure i s) as (_ & NA & NB).
  destruct (webTimers (cancelNotification closure i s) !! i) as [h|] eqn:Hw.
  - split; simpl; [apply lookup_delete_eq|].
    intros h' Hh'. rewrite NA in Hw. rewrite Hw in Hh'. injection Hh' as <-.
    apply lookup_delete_eq.
  - split; [exact Hw|]. intros h Hh. rewrite NA in Hw. congruence.
Qed.

(** X1.  [handleDeleteTodo] takes out every task that has the id and no
    other: the tasks that stay are the same records in the same order,
    reminder fields included; the timer table has no entry for the id and
    the timer it pointed at is stopped. *)
Theorem handleDeleteTodo_removes (i : string) (s : State) :
  let s' := handleDeleteTodo i s in
  todos s' = List.filter (fun t => negb (String.eqb (id t) i)) (todos s)
  /\ (forall t, In t (todos s') <-> In t (todos s) /\ id t <> i)
  /\ webTimers s' !! i = None
  /\ (forall h, webTimers s !! i = Some h -> timers (env s') !! h = None).
Proof.
  intros s'.
  assert (Ht : todos s' = List.filter (fun t => negb (String.eqb (id t) i)) (todos s)).
  { unfold s', handleDeleteTodo. cbn [setTodos todos].
    rewrite todos_clearReminder. apply filter_reset_other. }
  split; [exact Ht|]. split.
  - intros t. rewrite Ht, filter_In. rewrite negb_true_iff, String.eqb_neq. tauto.
  - unfold s', handleDeleteTodo, clearReminder. cbn [setTodos webTimers env].
    apply cancelTriggers_timer.
Qed.

Lemma find_todo_filtered (i : string) (l : list TodoItem) :
  find_todo i (List.filter (fun t => negb (String.eqb (id t) i)) l) = None.
Proof.
  unfold find_todo. induction l as [|x l IH]; simpl; [reflexivity|].
  destruct (String.eqb (id x) i) eqn:E; simpl; [exact IH|]. now rewrite E.
Qed.

Lemma filter_twice {A} (p : A -> bool) (l : list A) :
  List.filter p (List.filter p l) = List.filter p l.
Proof.
  induction l as [|x l IH]; simpl; [reflexivity|].
  destruct (p x) eqn:E; simpl; [rewrite E|]; now rewrite IH.
Qed.

(** X2.  Deleting is idempotent: deleting the same id a second time
    changes nothing at all, neither the list nor the timers nor the
    platform. *)
Theorem handleDeleteTodo_twice (i : string) (s : State) :
  handleDeleteTodo i (handleDeleteTodo i s) = handleDeleteTodo i s.
Proof.
  set (s1 := handleDeleteTodo i s).
  assert (Ht : todos s1 = List.filter (fun t => negb (String.eqb (id t) i)) (todos s)).
  { unfold s1, handleDeleteTodo. cbn [setTodos todos].
    rewrite todos_clearReminder. apply filter_reset_other. }
  assert (Hw : webTimers s1 !! i = None).
  { unfold s1, handleDeleteTodo, clearReminder. cbn [setTodos webTimers].
    apply cancelTriggers_timer. }
  assert (Hc : cancelTriggers (todos s1) i s1 = s1).
  { unfold cancelTriggers. rewrite Ht, find_todo_filtered. now rewrite Hw. }
  unfold handleDeleteTodo at 1. unfold clearReminder. rewrite Hc.
  assert (Hr : setTodos (resetReminder i) s1 = s1).
  { apply setTodos_same. rewrite Ht. apply resetReminder_absent. intros t Hin.
    apply filter_In in Hin as [_ Hne].
    now apply negb_true_iff, String.eqb_neq in Hne. }
  rewrite Hr. apply setTodos_same. rewrite Ht. apply filter_twice.
Qed.

Lemma with_completed_twice (t : TodoItem) :
  with_completed (negb (completed (with_completed (negb (completed t)) t)))
    (with_completed (negb (completed t)) t) = t.
Proof. destruct t. unfold with_completed. simpl. now rewrite negb_involutive. Qed.

(** X3.  [toggleComplete] flips the [completed] flag of the tasks with
    the id and touches nothing else (ids, titles, reminder fields, order);
    toggling twice gives the state back. *)
Theorem toggleComplete_involution (i : string) (s : State) :
  toggleComplete i (toggleComplete i s) = s
  /\ Forall2 (fun t t' =>
                same_identity t t' /\ title t' = title t
                /\ completed t' = if String.eqb (id t) i
                                  then negb (completed t) else completed t)
       (todos s) (todos (toggleComplete i s)).
Proof.
  split.
  - unfold toggleComplete. destruct s as [l ? ? ? ? ? ? ? ? ?].
    unfold setTodos. cbn. f_equal.
    rewrite map_map. rewrite <- (map_id l) at 2. apply map_ext. intros t.
    destruct (String.eqb (id t) i) eqn:E; cbn [id with_completed]; rewrite E;
      [apply with_completed_twice|reflexivity].
  - unfold toggleComplete. cbn [setTodos todos]. apply Forall2_map_same.
    intros t. unfold same_identity.
    destruct (String.eqb (id t) i); simpl; auto.
Qed.

(** ** Completing and clearing *)

Lemma filter_partition_length {A} (p : A -> bool) (l : list A) :
  (length (List.filter p l) + length (List.filter (fun x => negb (p x)) l)
   = length l)%nat.
Proof.
  induction l as [|x l IH]; simpl; [reflexivity|].
  destruct (p x); simpl; lia.
Qed.

Lemma completed_resetReminder (i : string) (l : list TodoItem) :
  map completed (resetReminder i l) = map completed l.
Proof.
  unfold resetReminder. rewrite map_map. apply map_ext. intros t.
  now destruct (String.eqb (id t) i).
Qed.

Lemma completed_fold_reset (ds l : list TodoItem) :
  map completed (fold_left (fun acc t => resetReminder (id t) acc) ds l)
  = map completed l.
Proof.
  revert l. induction ds as [|d ds IH]; intros l; simpl; [reflexivity|].
  rewrite IH. apply completed_resetReminder.
Qed.

Lemma filter_completed_map (l : list TodoItem) :
  length (List.filter completed l) = length (List.filter (fun b => b) (map completed l)).
Proof.
  induction l as [|x l IH]; simpl; [reflexivity|].
  destruct (completed x); simpl; now rewrite IH.
Qed.

Lemma filter_not_completed_flags (l : list TodoItem) :
  List.filter (fun b => b)
    (map completed (List.filter (fun t => negb (completed t)) l)) = [].
Proof.
  induction l as [|x l IH]; simpl; [reflexivity|].
  destruct (completed x) eqn:E; simpl; [exact IH|]. now rewrite E.
Qed.

Lemma filter_all_completed (l : list TodoItem) :
  List.filter completed (map (with_completed true) l) = map (with_completed true) l.
Proof. induction l as [|x l IH]; simpl; [reflexivity|]. now rewrite IH. Qed.

Lemma filter_none_pending (l : list TodoItem) :
  List.filter (fun t => negb (completed t)) (map (with_completed true) l) = [].
Proof. induction l as [|x l IH]; simpl; [reflexivity|exact IH]. Qed.

(** X4.  After [completeAll] every task counts as completed and none as
    pending; after [clearCompleted] none counts as completed and the list
    is as long as the number of tasks that were pending; [completeAll]
    followed by [clearCompleted] leaves the list empty. *)
Theorem complete_then_clear (s : State) :
  completedCount (completeAll s) = total s
  /\ pendingCount (completeAll s) = 0
  /\ completedCount (clearCompleted s) = 0
  /\ total (clearCompleted s) = pendingCount s
  /\ todos (clearCompleted (completeAll s)) = [].
Proof.
  pose proof (filter_all_completed (todos s)) as Hall.
  pose proof (filter_none_pending (todos s)) as Hnone.
  assert (H1 : completedCount (completeAll s) = total s).
  { unfold completedCount, total, completeAll. cbn [setTodos todos].
    now rewrite Hall, length_map. }
  assert (H3 : completedCount (clearCompleted s) = 0).
  { unfold completedCount. rewrite todos_clearCompleted, filter_completed_map.
    now rewrite completed_fold_reset, filter_not_completed_flags. }
  split; [exact H1|]. split.
  - unfold pendingCount. rewrite H1. unfold total, completeAll.
    cbn [setTodos todos]. rewrite length_map. lia.
  - split; [exact H3|]. split.
    + unfold total, pendingCount, completedCount, total.
      rewrite todos_clearCompleted.
      assert (Hlen : forall ds l,
                 length (fold_left (fun acc t => resetReminder (id t) acc) ds l)
                 = length l).
      { induction ds as [|d ds IH]; intros l; simpl; [reflexivity|].
        rewrite IH. unfold resetReminder. apply length_map. }
      rewrite Hlen.
      pose proof (filter_partition_length completed (todos s)). lia.
    + rewrite todos_clearCompleted. unfold completeAll. cbn [setTodos todos].
      rewrite Hnone. generalize (List.filter completed (map (with_completed true) (todos s))).
      intros ds. induction ds as [|d ds IH]; simpl; [reflexivity|exact IH].
Qed.

(** ** Identifiers and titles along the events *)

Lemma ids_resetReminder (i : string) (l : list TodoItem) :
  map id (resetReminder i l) = map id l.
Proof.
  unfold resetReminder. rewrite map_map. apply map_ext. intros t.
  now destruct (String.eqb (id t) i).
Qed.

Lemma titles_resetReminder (i : string) (l : list TodoItem) :
  map title (resetReminder i l) = map title l.
Proof.
  unfold resetReminder. rewrite map_map. apply map_ext. intros t.
  now destruct (String.eqb (id t) i).
Qed.

Lemma ids_recordReminder (i : string) ts n (l : list TodoItem) :
  map id (recordReminder i ts n l) = map id l.
Proof.
  unfold recordReminder. rewrite map_map. apply map_ext. intros t.
  now destruct (String.eqb (id t) i).
Qed.

Lemma titles_recordReminder (i : string) ts n (l : list TodoItem) :
  map title (recordReminder i ts n l) = map title l.
Proof.
  unfold recordReminder. rewrite map_map. apply map_ext. intros t.
  now destruct (String.eqb (id t) i).
Qed.

(** Arming a reminder rewrites reminder fields only. *)
Lemma scheduleReminder_fields closure i date s :
  map id (todos (scheduleReminder closure i date s)) = map id (todos s)
  /\ map title (todos (scheduleReminder closure i date s)) = map title (todos s)
  /\ map completed (todos (scheduleReminder closure i date s)) = map completed (todos s).
Proof.
  unfold scheduleReminder.
  set (s1 := clearReminder closure i s).
  assert (H1 : map id (todos s1) = map id (todos s)
               /\ map title (todos s1) = map title (todos s)
               /\ map completed (todos s1) = map completed (todos s)).
  { unfold s1. rewrite todos_clearReminder.
    now rewrite ids_resetReminder, titles_resetReminder, completed_resetReminder. }
  assert (Hrec : forall ts n l,
             map completed (recordReminder i ts n l) = map completed l).
  { intros ts n l. unfold recordReminder. rewrite map_map. apply map_ext.
    intros t. now destruct (String.eqb (id t) i). }
  destruct (hasNotifications (env s1) && negb (is_web (platformOS (env s1)))).
  - destruct (ensurePermission (env s1)) as [ok e1].
    destruct ok; cbn [negb setTodos setEnv todos];
      [|exact H1].
    destruct (scheduleNotificationAsync _ date e1) as [h e2].
    cbn [setTodos setEnv todos].
    now rewrite ids_recordReminder, titles_recordReminder, Hrec.
  - destruct (setTimeout _ _ _ _ (env s1)) as [h e1].
    cbn [setTodos setEnv setWebTimers todos].
    now rewrite ids_recordReminder, titles_recordReminder, Hrec.
Qed.

Lemma confirmReminder_fields s :
  map id (todos (confirmReminder s)) = map id (todos s)
  /\ map title (todos (confirmReminder s)) = map title (todos s)
  /\ map completed (todos (confirmReminder s)) = map completed (todos s).
Proof.
  unfold confirmReminder.
  destruct (reminderTargetId s) as [target|]; [|auto].
  destruct (negb (JS.truthy_str target)); [auto|].
  match goal with |- context [if ?b then _ else _] => destruct b end; [auto|].
  destruct (map JS.parseInt (JS.split "-" (JS.trim (reminderDateText s))))
    as [|y [|m [|d [|? ?]]]]; auto.
  destruct (map JS.parseInt (JS.split ":" (JS.trim (reminderTimeText s))))
    as [|hh [|mm [|? ?]]]; auto.
  match goal with |- context [if ?b then _ else _] => destruct b end; [auto|].
  cbn [setReminderModalVisible todos]. apply scheduleReminder_fields.
Qed.

Lemma ids_fold_reset (ds l : list TodoItem) :
  map id (fold_left (fun acc t => resetReminder (id t) acc) ds l) = map id l.
Proof.
  revert l. induction ds as [|d ds IH]; intros l; simpl; [reflexivity|].
  rewrite IH. apply ids_resetReminder.
Qed.

Lemma titles_fold_reset (ds l : list TodoItem) :
  map title (fold_left (fun acc t => resetReminder (id t) acc) ds l) = map title l.
Proof.
  revert l. induction ds as [|d ds IH]; intros l; simpl; [reflexivity|].
  rewrite IH. apply titles_resetReminder.
Qed.

Lemma sublist_map_filter {A B} (f : A -> B) (p : A -> bool) (l : list A) :
  map f (List.filter p l) `sublist_of` map f l.
Proof.
  induction l as [|x l IH]; simpl; [constructor|].
  destruct (p x); simpl; [now apply sublist_skip|now apply sublist_cons].
Qed.

(** X5.  No event changes the id of a task, makes one up or moves tasks
    around: after any event other than [Add] the ids in the list are a
    subsequence of the ids before it, and after [Add] a subsequence of
    the current clock reading followed by them. *)
Theorem step_keeps_ids (ev : Event) (s : State) :
  map id (todos (step ev s)) `sublist_of`
    match ev with
    | Add => JS.String_of (JS.Num (now (env s))) :: map id (todos s)
    | _ => map id (todos s)
    end.
Proof.
  destruct ev; cbn [step]; try reflexivity.
  - unfold handleAddTodo.
    destruct (String.length (JS.trim (draftTitle s)) =? 0)%nat;
      [now apply sublist_cons|reflexivity].
  - unfold handleDeleteTodo. cbn [setTodos todos].
    rewrite todos_clearReminder, <- (ids_resetReminder todoId (todos s)).
    apply sublist_map_filter.
  - unfold toggleComplete. cbn [setTodos todos]. rewrite map_map.
    erewrite map_ext; [reflexivity|]. intros t.
    now destruct (String.eqb (id t) todoId).
  - destruct (find_todo todoId (todos s)); reflexivity.
  - unfold saveEdit. destruct (editingId s) as [eid|]; [|reflexivity].
    destruct (negb (JS.truthy_str eid)); [reflexivity|].
    destruct (String.length (JS.trim (editingText s)) =? 0)%nat; [reflexivity|].
    cbn [setEditingText setEditingId setTodos todos]. rewrite map_map.
    erewrite map_ext; [reflexivity|]. intros t.
    now destruct (String.eqb (id t) eid).
  - unfold completeAll. cbn [setTodos todos]. now rewrite map_map.
  - destruct ok; [apply sublist_nil_l|reflexivity].
  - rewrite todos_clearCompleted, ids_fold_reset. apply sublist_map_filter.
  - now destruct (confirmReminder_fields s) as [-> _].
  - now rewrite todos_clearReminder, ids_resetReminder.
  - unfold fireTimer. destruct (timers (env s) !! h) as [tm|]; [|reflexivity].
    destruct (JS.lt (JS.Num (now (env s))) (timer_due tm)); [reflexivity|].
    now rewrite todos_clearReminder, ids_resetReminder.
  - destruct (0 <=? dt); reflexivity.
Qed.

Lemma trimEnd_cons (c : ascii) (r : string) :
  JS.trimEnd (String c r)
  = match JS.trimEnd r with
    | EmptyString => if JS.isWhiteSpace c then EmptyString else String c EmptyString
    | r' => String c r'
    end.
Proof. reflexivity. Qed.

Lemma trimEnd_idem (x : string) : JS.trimEnd (JS.trimEnd x) = JS.trimEnd x.
Proof.
  induction x as [|c r IH]; [reflexivity|]. rewrite trimEnd_cons.
  destruct (JS.trimEnd r) as [|d r'] eqn:E.
  - destruct (JS.isWhiteSpace c) eqn:W; [reflexivity|].
    rewrite trimEnd_cons. cbn [JS.trimEnd]. now rewrite W.
  - rewrite trimEnd_cons, IH. reflexivity.
Qed.

Lemma trimStart_head (x : string) :
  JS.trimStart x = ""
  \/ exists c r, JS.trimStart x = String c r /\ JS.isWhiteSpace c = false.
Proof.
  induction x as [|c r IH]; [now left|]. cbn [JS.trimStart].
  destruct (JS.isWhiteSpace c) eqn:W; [exact IH|]. right. eauto.
Qed.

Lemma trimEnd_head (c : ascii) (r : string) :
  JS.isWhiteSpace c = false -> exists r', JS.trimEnd (String c r) = String c r'.
Proof.
  intros W. rewrite trimEnd_cons. destruct (JS.trimEnd r); [rewrite W|]; eauto.
Qed.

(** [trim] does nothing to a trimmed string. *)
Lemma trim_idem (x : string) : JS.trim (JS.trim x) = JS.trim x.
Proof.
  unfold JS.trim at 2 3.
  destruct (trimStart_head x) as [->|(c & r & -> & W)]; [reflexivity|].
  destruct (trimEnd_head c r W) as [r' E].
  unfold JS.trim. rewrite E. cbn [JS.trimStart]. rewrite W, <- E.
  apply trimEnd_idem.
Qed.

Lemma title_ok_titles (l l' : list TodoItem) :
  map title l' = map title l -> Forall title_ok l -> Forall title_ok l'.
Proof.
  intros E H.
  apply (Forall_map title (fun x => x <> "" /\ JS.trim x = x)).
  rewrite E. now apply Forall_map.
Qed.

Lemma title_ok_filter (p : TodoItem -> bool) (l : list TodoItem) :
  Forall title_ok l -> Forall title_ok (List.filter p l).
Proof.
  intros H. induction H as [|t l Ht Hl IH]; simpl; [constructor|].
  destruct (p t); [constructor|]; assumption.
Qed.

Lemma trimmed_title_ok (x : string) (t : TodoItem) :
  (String.length (JS.trim x) =? 0)%nat = false ->
  title_ok (with_title (JS.trim x) t).
Proof.
  intros H. split; cbn [with_title title]; [|apply trim_idem].
  intros E. rewrite E in H. discriminate H.
Qed.

Lemma title_ok_step ev s :
  Forall title_ok (todos s) -> Forall title_ok (todos (step ev s)).
Proof.
  intros H. destruct ev; cbn [step]; try exact H.
  - unfold handleAddTodo.
    destruct (String.length (JS.trim (draftTitle s)) =? 0)%nat eqn:E; [exact H|].
    cbn [setDraftTitle setTodos todos]. constructor; [|exact H].
    split; cbn [title]; [|apply trim_idem].
    intros E0. rewrite E0 in E. discriminate E.
  - unfold handleDeleteTodo. cbn [setTodos todos]. apply title_ok_filter.
    rewrite todos_clearReminder.
    eapply title_ok_titles; [apply titles_resetReminder|exact H].
  - unfold toggleComplete. cbn [setTodos todos].
    eapply title_ok_titles; [|exact H]. rewrite map_map. apply map_ext.
    intros t. now destruct (String.eqb (id t) todoId).
  - destruct (find_todo todoId (todos s)); exact H.
  - unfold saveEdit. destruct (editingId s) as [eid|]; [|exact H].
    destruct (negb (JS.truthy_str eid)); [exact H|].
    destruct (String.length (JS.trim (editingText s)) =? 0)%nat eqn:E; [exact H|].
    cbn [setEditingText setEditingId setTodos todos].
    induction H as [|t l Ht Hl IH]; simpl; constructor; [|exact IH].
    destruct (String.eqb (id t) eid); [now apply trimmed_title_ok|exact Ht].
  - unfold completeAll. cbn [setTodos todos].
    eapply title_ok_titles; [|exact H]. now rewrite map_map.
  - destruct ok; [constructor|exact H].
  - rewrite todos_clearCompleted.
    eapply title_ok_titles; [apply titles_fold_reset|]. now apply title_ok_filter.
  - eapply title_ok_titles; [apply confirmReminder_fields|exact H].
  - rewrite todos_clearReminder.
    eapply title_ok_titles; [apply titles_resetReminder|exact H].
  - unfold fireTimer. destruct (timers (env s) !! h) as [tm|]; [|exact H].
    destruct (JS.lt (JS.Num (now (env s))) (timer_due tm)); [exact H|].
    rewrite todos_clearReminder.
    eapply title_ok_titles; [apply titles_resetReminder|exact H].
  - destruct (0 <=? dt); exact H.
Qed.

(** X6.  Whatever the user does, every task on the screen has a title
    that is not empty and carries no white space at either end: adding
    and saving an edit store the trimmed text and refuse an empty one, and
    nothing else writes a title. *)
Theorem titles_stay_trimmed (e0 : Env) (evs : list Event) :
  Forall title_ok (todos (run evs (init e0))).
Proof.
  induction evs as [|ev evs IH] using rev_ind; [constructor|].
  rewrite run_snoc. now apply title_ok_step.
Qed.

(** ** The page timers *)

Lemma match_delete W T n (i : string) (h : positive) :
  timers_match_on W T n -> W !! i = Some h ->
  timers_match_on (delete i W) (delete h T) n.
Proof.
  intros (M1 & M2 & M3) Hi. repeat split.
  - intros h' tm Hh'. apply lookup_delete_Some in Hh' as [Hne Hh'].
    apply lookup_delete_Some. split; [|now apply M1].
    intros E. apply M1 in Hh'. rewrite <- E, Hi in Hh'. congruence.
  - intros j h' Hj. apply lookup_delete_Some in Hj as [Hne Hj].
    destruct (M2 j h' Hj) as (tm & Htm & Htodo). exists tm. split; [|exact Htodo].
    apply lookup_delete_Some. split; [|exact Htm].
    intros E. subst h'. destruct (M2 i h Hi) as (tm0 & Htm0 & Htodo0). congruence.
  - intros h' tm Hh'. apply lookup_delete_Some in Hh' as [_ Hh']. eauto.
Qed.

Lemma match_insert W T (i : string) (tm : Timer) (n : positive) :
  timers_match_on W T n -> W !! i = None -> timer_todo tm = i ->
  timers_match_on (<[i := n]> W) (<[n := tm]> T) (Pos.succ n).
Proof.
  intros (M1 & M2 & M3) Hi Htm. repeat split.
  - intros h' tm' Hh'. apply lookup_insert_Some in Hh' as [[<- <-]|[Hne Hh']].
    + rewrite Htm. apply lookup_insert_eq.
    + pose proof (M1 _ _ Hh') as Hw. rewrite lookup_insert_ne; [exact Hw|].
      intros E. rewrite <- E in Hw. congruence.
  - intros j h' Hj. apply lookup_insert_Some in Hj as [[<- <-]|[Hne Hj]].
    + exists tm. split; [apply lookup_insert_eq|exact Htm].
    + destruct (M2 j h' Hj) as (tm' & Htm' & Htodo). exists tm'.
      split; [|exact Htodo]. rewrite lookup_insert_ne; [exact Htm'|].
      intros E. subst h'. apply M3 in Htm'. lia.
  - intros h' tm' Hh'. apply lookup_insert_Some in Hh' as [[<- <-]|[Hne Hh']];
      [lia|]. apply M3 in Hh'. lia.
Qed.

Lemma cancelNotification_view closure i s :
  webTimers (cancelNotification closure i s) = webTimers s
  /\ timers (env (cancelNotification closure i s)) = timers (env s)
  /\ nextTimer (env (cancelNotification closure i s)) = nextTimer (env s).
Proof.
  unfold cancelNotification.
  destruct (find_todo i closure) as [todo|]; [|auto].
  destruct (notificationId todo) as [| |h]; auto.
  destruct (JS.truthy_str h && hasNotifications (env s)); auto.
Qed.

Lemma cancelTriggers_match closure i s :
  timers_match s -> timers_match (cancelTriggers closure i s).
Proof.
  unfold timers_match. rewrite cancelTriggers_unfold. cbv zeta.
  destruct (cancelNotification_view closure i s) as (VA & VB & VC).
  destruct (webTimers (cancelNotification closure i s) !! i) as [h|] eqn:Hw.
  - cbn [setWebTimers setEnv webTimers env clearTimeout timers nextTimer].
    rewrite VA, VB, VC. rewrite VA in Hw. intros M. now apply match_delete.
  - now rewrite VA, VB, VC.
Qed.

Lemma clearReminder_match closure i s :
  timers_match s -> timers_match (clearReminder closure i s).
Proof. intros M. apply (cancelTriggers_match closure i s M). Qed.

Lemma scheduleReminder_match closure i date s :
  timers_match s -> timers_match (scheduleReminder closure i date s).
Proof.
  intros M. unfold scheduleReminder.
  set (s1 := clearReminder closure i s).
  assert (M1 : timers_match s1) by now apply clearReminder_match.
  assert (Hi : webTimers s1 !! i = None).
  { unfold s1, clearReminder. cbn [setTodos webTimers]. apply cancelTriggers_timer. }
  destruct (hasNotifications (env s1) && negb (is_web (platformOS (env s1)))).
  - unfold ensurePermission.
    destruct (negb (hasNotifications (env s1))); [exact M1|].
    destruct (permissionGranted (env s1)); [exact M1|].
    destruct (grantsOnRequest (env s1)); exact M1.
  - unfold timers_match, setTimeout.
    cbn [setTodos setWebTimers setEnv webTimers env timers nextTimer].
    now apply match_insert.
Qed.

Lemma fold_cancel_match closure (l : list TodoItem) s :
  timers_match s ->
  timers_match (fold_left (fun acc t => cancelTriggers closure (id t) acc) l s).
Proof.
  revert s. induction l as [|t l IH]; intros s M; simpl; [exact M|].
  apply IH. now apply cancelTriggers_match.
Qed.

Lemma confirmReminder_match s : timers_match s -> timers_match (confirmReminder s).
Proof.
  intros M. unfold confirmReminder.
  destruct (reminderTargetId s) as [target|]; [|exact M].
  destruct (negb (JS.truthy_str target)); [exact M|].
  match goal with |- context [if ?b then _ else _] => destruct b end; [exact M|].
  destruct (map JS.parseInt (JS.split "-" (JS.trim (reminderDateText s))))
    as [|y [|m [|d [|? ?]]]]; try exact M.
  destruct (map JS.parseInt (JS.split ":" (JS.trim (reminderTimeText s))))
    as [|hh [|mm [|? ?]]]; try exact M.
  match goal with |- context [if ?b then _ else _] => destruct b end; [exact M|].
  apply (scheduleReminder_match (todos s) target _ s M).
Qed.

Lemma fireTimer_match h s : timers_match s -> timers_match (fireTimer h s).
Proof.
  intros M. unfold fireTimer.
  destruct (timers (env s) !! h) as [tm|] eqn:Hh; [|exact M].
  destruct (JS.lt (JS.Num (now (env s))) (timer_due tm)); [exact M|].
  pose proof (proj1 M h tm Hh) as Hreg.
  unfold clearReminder. unfold timers_match.
  cbn [setTodos webTimers env].
  rewrite cancelTriggers_unfold. cbv zeta.
  match goal with |- context [cancelNotification ?c ?i ?s0] =>
    destruct (cancelNotification_view c i s0) as (VA & VB & VC) end.
  rewrite VA. cbn [setEnv webTimers]. rewrite Hreg.
  cbn [setWebTimers setEnv webTimers env clearTimeout timers nextTimer].
  rewrite ?VA, ?VB, ?VC.
  cbn [setEnv env alert clearTimeout timers nextTimer webTimers].
  rewrite delete_delete_eq. apply match_delete; [exact M|exact Hreg].
Qed.

Lemma timers_match_step ev s : timers_match s -> timers_match (step ev s).
Proof.
  intros M. destruct ev; cbn [step]; try exact M.
  - unfold handleAddTodo.
    destruct (String.length (JS.trim (draftTitle s)) =? 0)%nat; exact M.
  - apply (cancelTriggers_match (todos s) todoId s M).
  - destruct (find_todo todoId (todos s)); exact M.
  - unfold saveEdit. destruct (editingId s) as [eid|]; [|exact M].
    destruct (negb (JS.truthy_str eid)); [exact M|].
    destruct (String.length (JS.trim (editingText s)) =? 0)%nat; exact M.
  - destruct ok; exact M.
  - unfold clearCompleted, timers_match.
    match goal with |- context [fold_left ?f ?l ?s0] =>
      destruct (env_fold_reset l s0) as [-> ->] end.
    apply (fold_cancel_match (todos s) _ s M).
  - now apply confirmReminder_match.
  - apply (cancelTriggers_match (todos s) todoId s M).
  - now apply fireTimer_match.
  - destruct (0 <=? dt); exact M.
Qed.

(** X7.  At every moment the table of page timers and the timers pending
    in the event loop correspond one to one: each pending timer is
    registered under the id of the task it was set for, each entry of the
    table points at a pending timer of that task, so no task has two
    timers pending, and no handle is given out twice. *)
Theorem one_timer_per_task (e0 : Env) (evs : list Event) :
  timers e0 = ∅ ->
  timers_match (run evs (init e0)).
Proof.
  intros Ht. induction evs as [|ev evs IH] using rev_ind.
  - unfold timers_match, run, init. cbn. rewrite Ht. repeat split.
    + intros h tm H. rewrite lookup_empty in H. discriminate H.
    + intros i h H. rewrite lookup_empty in H. discriminate H.
    + intros h tm H. rewrite lookup_empty in H. discriminate H.
  - rewrite run_snoc. now apply timers_match_step.
Qed.

Lemma one_timer_per_task_witness :
  timers sample_env = ∅ /\ timers_match (run arm_one (init sample_env)).
Proof.
  split; [reflexivity|].
  apply (one_timer_per_task sample_env arm_one). reflexivity.
Defined.

(** ** Arming and cancelling *)

(** What [cancelTriggers] does to each part of the state. *)
Lemma cancelTriggers_effect closure i s :
  let s' := cancelTriggers closure i s in
  webTimers s' = delete i (webTimers s)
  /\ timers (env s') = match webTimers s !! i with
                       | Some h => delete h (timers (env s))
                       | None => timers (env s)
                       end
  /\ scheduled (env s') =
       match find_todo i closure with
       | Some t =>
           match notificationId t with
           | JS.Val h => if JS.truthy_str h && hasNotifications (env s)
                         then delete h (scheduled (env s)) else scheduled (env s)
           | _ => scheduled (env s)
           end
       | None => scheduled (env s)
       end
  /\ shown (env s') = shown (env s)
  /\ hasNotifications (env s') = hasNotifications (env s)
  /\ platformOS (env s') = platformOS (env s)
  /\ now (env s') = now (env s)
  /\ nextTimer (env s') = nextTimer (env s)
  /\ todos s' = todos s
  /\ permissionGranted (env s') = permissionGranted (env s)
  /\ grantsOnRequest (env s') = grantsOnRequest (env s)
  /\ nextNotification (env s') = nextNotification (env s).
Proof.
  cbv zeta. unfold cancelTriggers.
  destruct (find_todo i closure) as [t|]; [destruct (notificationId t) as [| |h]|];
    try destruct (JS.truthy_str h && hasNotifications (env s));
    cbn [setEnv webTimers env];
    destruct (webTimers s !! i) as [h'|] eqn:Hw;
    cbn [setWebTimers setEnv webTimers env clearTimeout cancelScheduledNotificationAsync
           timers scheduled shown hasNotifications platformOS now nextTimer todos
           permissionGranted grantsOnRequest nextNotification];
    repeat split; try reflexivity; symmetry; now apply delete_id.
Qed.

Lemma find_todo_map (i : string) (f : TodoItem -> TodoItem) (l : list TodoItem) :
  (forall t, id (f t) = id t) ->
  find_todo i (map f l) = f <$> find_todo i l.
Proof.
  intros Hf. unfold find_todo. induction l as [|x l IH]; simpl; [reflexivity|].
  rewrite Hf. destruct (String.eqb (id x) i); [reflexivity|exact IH].
Qed.

Lemma find_todo_id (i : string) (l : list TodoItem) (t : TodoItem) :
  find_todo i l = Some t -> id t = i.
Proof.
  unfold find_todo. intros H. apply find_some in H as [_ H].
  now apply String.eqb_eq in H.
Qed.

Lemma find_todo_reset (i : string) (l : list TodoItem) :
  find_todo i (resetReminder i l) = with_reminder JS.Null JS.Null <$> find_todo i l.
Proof.
  unfold resetReminder.
  rewrite find_todo_map by (intros t; now destruct (String.eqb (id t) i)).
  destruct (find_todo i l) as [t|] eqn:E; [|reflexivity]. simpl.
  now rewrite (find_todo_id _ _ _ E), String.eqb_refl.
Qed.

Lemma resetReminder_twice (i : string) (l : list TodoItem) :
  resetReminder i (resetReminder i l) = resetReminder i l.
Proof.
  unfold resetReminder. rewrite map_map. apply map_ext. intros t.
  destruct (String.eqb (id t) i) eqn:E; cbn [id with_reminder]; now rewrite E.
Qed.

(** X8.  [clearReminder] leaves the task unarmed: the tasks with the id
    have both reminder fields null and every other field and task is as
    before; the timer table has no entry for the id and the timer it
    pointed at is stopped; and cancelling again changes nothing. *)
Theorem clearReminder_unarms (i : string) (s : State) :
  let s' := clearReminder (todos s) i s in
  Forall2 (fun t t' =>
             id t' = id t /\ title t' = title t /\ completed t' = completed t
             /\ if String.eqb (id t) i
                then reminderTimestamp t' = JS.Null /\ notificationId t' = JS.Null
                else reminderTimestamp t' = reminderTimestamp t
                     /\ notificationId t' = notificationId t)
    (todos s) (todos s')
  /\ webTimers s' !! i = None
  /\ (forall h, webTimers s !! i = Some h -> timers (env s') !! h = None)
  /\ clearReminder (todos s') i s' = s'.
Proof.
  intros s'.
  assert (Ht : todos s' = resetReminder i (todos s)) by apply todos_clearReminder.
  assert (Hw : webTimers s' !! i = None).
  { unfold s', clearReminder. cbn [setTodos webTimers]. apply cancelTriggers_timer. }
  split; [|split; [exact Hw|split]].
  - rewrite Ht. unfold resetReminder. apply Forall2_map_same. intros t.
    destruct (String.eqb (id t) i); cbn; auto.
  - unfold s', clearReminder. cbn [setTodos env]. apply cancelTriggers_timer.
  - assert (Hc : cancelTriggers (todos s') i s' = s').
    { unfold cancelTriggers. rewrite Ht, find_todo_reset.
      unfold fmap, option_fmap, option_map.
      destruct (find_todo i (todos s)) as [t|];
        cbn [notificationId with_reminder]; now rewrite Hw. }
    unfold clearReminder at 1. rewrite Hc. apply setTodos_same.
    rewrite Ht. apply resetReminder_twice.
Qed.

(** X9.  When the notification service is there but permission is
    refused, [scheduleReminder] arms nothing and tells the user so; the
    reminder the task had before is gone all the same, since it was
    cancelled first. *)
Theorem denied_permission_unarms (i : string) (date : JS.Date) (s : State) :
  hasNotifications (env s) = true -> is_web (platformOS (env s)) = false ->
  permissionGranted (env s) = false -> grantsOnRequest (env s) = false ->
  let s' := scheduleReminder (todos s) i date s in
  shown (env s') = (shown (env s) ++ [PermissionOff])%list
  /\ todos s' = resetReminder i (todos s)
  /\ webTimers s' !! i = None
  /\ timers (env s') ⊆ timers (env s)
  /\ scheduled (env s') ⊆ scheduled (env s).
Proof.
  intros Hh Hos Hg Hr s'. unfold s', scheduleReminder.
  destruct (cancelTriggers_effect (todos s) i s)
    as (EW & ET & ES & Esh & Eh & Eos & _ & _ & Etd & Ep & Eg & _).
  destruct (cancelTriggers_shrinks (todos s) i s) as (_ & ST & SS & _ & _).
  unfold clearReminder. cbn [setTodos env].
  rewrite Eh, Eos, Hh, Hos. cbn [negb andb].
  unfold ensurePermission. rewrite Eh, Hh, Ep, Hg, Eg, Hr. cbn [negb].
  cbn [setEnv setTodos env todos webTimers alert shown timers scheduled].
  rewrite Esh, Etd, EW. repeat split; try assumption.
  apply lookup_delete_eq.
Qed.

Lemma denied_permission_unarms_witness :
  let s := run arm_one
             (init (initEnv (JS.mkEngine true (fun _ => JS.NaN)) ios true false false
                      1735689600000)) in
  hasNotifications (env s) = true /\ is_web (platformOS (env s)) = false
  /\ permissionGranted (env s) = false /\ grantsOnRequest (env s) = false
  /\ (let s' := scheduleReminder (todos s) "1735689600000" (JS.mkDate (JS.Num 1735781400000)) s in
      shown (env s') = (shown (env s) ++ [PermissionOff])%list
      /\ todos s' = resetReminder "1735689600000" (todos s)
      /\ webTimers s' !! "1735689600000" = None
      /\ timers (env s') ⊆ timers (env s)
      /\ scheduled (env s') ⊆ scheduled (env s)).
Proof.
  intros s. split; [reflexivity|]. split; [reflexivity|].
  split; [reflexivity|]. split; [reflexivity|].
  apply (denied_permission_unarms "1735689600000" _ s); reflexivity.
Defined.

Lemma reset_record (i : string) ts n (l : list TodoItem) :
  resetReminder i (recordReminder i ts n l) = resetReminder i l.
Proof.
  unfold resetReminder, recordReminder. rewrite map_map. apply map_ext. intros t.
  destruct (String.eqb (id t) i) eqn:E; cbn [id with_reminder]; now rewrite E.
Qed.

Lemma find_todo_record (i : string) ts n (l : list TodoItem) :
  find_todo i (recordReminder i ts n l) = with_reminder (JS.Val ts) n <$> find_todo i l.
Proof.
  unfold recordReminder.
  rewrite find_todo_map by (intros t; now destruct (String.eqb (id t) i)).
  destruct (find_todo i l) as [t|] eqn:E; [|reflexivity]. simpl.
  now rewrite (find_todo_id _ _ _ E), String.eqb_refl.
Qed.

(** The three ways [scheduleReminder] can end: permission refused, a
    notification scheduled, a page timer started. *)
Lemma scheduleReminder_cases closure i date s :
  let s0 := cancelTriggers closure i s in
  let s1 := scheduleReminder closure i date s in
  let l0 := resetReminder i (todos s) in
  hasNotifications (env s1) = hasNotifications (env s)
  /\ now (env s1) = now (env s)
  /\ ((hasNotifications (env s) && negb (is_web (platformOS (env s))) = true
       /\ todos s1 = l0
       /\ webTimers s1 = webTimers s0 /\ timers (env s1) = timers (env s0)
       /\ scheduled (env s1) = scheduled (env s0)
       /\ shown (env s1) = (shown (env s) ++ [PermissionOff])%list)
      \/ (exists h x,
            h <> "" /\ hasNotifications (env s) = true
            /\ hasNotifications (env s) && negb (is_web (platformOS (env s))) = true
            /\ todos s1 = recordReminder i (JS.getTime date) (JS.Val h) l0
            /\ webTimers s1 = webTimers s0 /\ timers (env s1) = timers (env s0)
            /\ scheduled (env s1) = <[h := x]> (scheduled (env s0))
            /\ shown (env s1) = shown (env s))
      \/ (exists ttl due,
            hasNotifications (env s) && negb (is_web (platformOS (env s))) = false
            /\ due = match JS.max (JS.Num 0) (JS.sub (JS.getTime date) (JS.Num (now (env s)))) with
                     | JS.NaN => JS.Num (now (env s))
                     | JS.Num d => JS.Num (now (env s) + d)
                     end
            /\ ttl = match find_todo i closure with
                     | Some t => title t
                     | None => ""
                     end
            /\ todos s1 = recordReminder i (JS.getTime date) JS.Null l0
            /\ webTimers s1 = <[i := nextTimer (env s)]> (webTimers s0)
            /\ timers (env s1)
               = <[nextTimer (env s) := mkTimer i ttl closure due]> (timers (env s0))
            /\ scheduled (env s1) = scheduled (env s0)
            /\ shown (env s1) = shown (env s))).
Proof.
  cbv zeta.
  destruct (cancelTriggers_effect closure i s)
    as (EW & ET & ES & Esh & Eh & Eos & Enow & Ent & Etd & Ep & Eg & Enn).
  unfold scheduleReminder, clearReminder.
  set (s0 := cancelTriggers closure i s) in *.
  cbn [setTodos env]. rewrite Eh, Eos.
  destruct (hasNotifications (env s) && negb (is_web (platformOS (env s)))) eqn:Hbr.
  - assert (Hhas : hasNotifications (env s) = true)
      by (now apply andb_true_iff in Hbr as [Hhas _]).
    unfold ensurePermission. rewrite Eh, Hhas. cbn [negb].
    destruct (permissionGranted (env s0)); [|destruct (grantsOnRequest (env s0))];
      cbn [negb scheduleNotificationAsync setTodos setEnv webTimers env timers alert
             scheduled todos hasNotifications shown now];
      rewrite ?Etd, ?Esh, ?Eh, ?Enow;
      (split; [congruence|split; [reflexivity|]]).
    + right; left. eexists _, _. repeat split; try reflexivity; try assumption.
      discriminate.
    + right; left. eexists _, _. repeat split; try reflexivity; try assumption.
      discriminate.
    + left. repeat split; reflexivity.
  - unfold setTimeout.
    cbn [setTodos setWebTimers setEnv webTimers env timers scheduled todos
           hasNotifications shown now].
    rewrite ?Etd, ?Esh, ?Eh, ?Enow, ?Ent.
    split; [reflexivity|split; [reflexivity|]].
    right; right. eexists _, _. repeat split; reflexivity.
Qed.

(** X10.  Arming a reminder and cancelling it straight away leaves no
    trigger behind that was not there before: no entry in the timer
    table, no new pending timer, both reminder fields null, and, where
    the task is on the list, no new notification on the platform. *)
Theorem arm_then_cancel (i : string) (date : JS.Date) (s : State) :
  let s1 := scheduleReminder (todos s) i date s in
  let s2 := clearReminder (todos s1) i s1 in
  todos s2 = resetReminder i (todos s)
  /\ webTimers s2 !! i = None
  /\ timers (env s2) ⊆ timers (env s)
  /\ (is_Some (find_todo i (todos s)) -> scheduled (env s2) ⊆ scheduled (env s)).
Proof.
  intros s1 s2.
  destruct (cancelTriggers_effect (todos s) i s) as (EW & _).
  destruct (cancelTriggers_shrinks (todos s) i s) as (_ & ST & SS & _ & _).
  destruct (cancelTriggers_effect (todos s1) i s1)
    as (EW2 & ET2 & ES2 & _ & _ & _ & _ & _ & Etd2 & _).
  change (timers (env s2)) with (timers (env (cancelTriggers (todos s1) i s1))).
  change (scheduled (env s2)) with (scheduled (env (cancelTriggers (todos s1) i s1))).
  change (webTimers s2) with (webTimers (cancelTriggers (todos s1) i s1)).
  change (todos s2) with (resetReminder i (todos (cancelTriggers (todos s1) i s1))).
  rewrite Etd2, EW2, ET2, ES2. clear EW2 ET2 ES2 Etd2 s2.
  destruct (scheduleReminder_cases (todos s) i date s)
    as (Hhas & _ & [(_ & Ht & Hw & HT & HS & _)
                   |[(h & x & Hne & Hh & _ & Ht & Hw & HT & HS & _)
                    |(ttl & due & _ & _ & _ & Ht & Hw & HT & HS & _)]]);
    fold s1 in Hhas, Ht, Hw, HT, HS; rewrite Ht, Hw, HT, HS;
    (split; [|split; [apply lookup_delete_eq|split]]).
  - apply resetReminder_twice.
  - rewrite EW, lookup_delete_eq. exact ST.
  - intros _. rewrite find_todo_reset.
    destruct (find_todo i (todos s)); cbn [fmap option_fmap option_map notificationId
                                            with_reminder]; exact SS.
  - rewrite reset_record. apply resetReminder_twice.
  - rewrite EW, lookup_delete_eq. exact ST.
  - intros [t Hfind]. rewrite find_todo_record, find_todo_reset, Hfind.
    cbn [fmap option_fmap option_map notificationId with_reminder].
    rewrite (truthy_str_true h Hne), Hhas, Hh. cbn [andb].
    rewrite delete_insert_eq. etransitivity; [apply delete_subseteq|exact SS].
  - rewrite reset_record. apply resetReminder_twice.
  - rewrite lookup_insert_eq, delete_insert_eq.
    etransitivity; [apply delete_subseteq|exact ST].
  - intros [t Hfind]. rewrite find_todo_record, find_todo_reset, Hfind.
    cbn [fmap option_fmap option_map notificationId with_reminder]. exact SS.
Qed.

Lemma arm_then_cancel_witness :
  let s := run arm_one (init native_env) in
  is_Some (find_todo "1735689600000" (todos s))
  /\ scheduled
       (env (clearReminder
               (todos (scheduleReminder (todos s) "1735689600000"
                         (JS.mkDate (JS.Num 1735781400000)) s))
               "1735689600000"
               (scheduleReminder (todos s) "1735689600000"
                  (JS.mkDate (JS.Num 1735781400000)) s)))
     ⊆ scheduled (env s).
Proof.
  intros s.
  assert (H : is_Some (find_todo "1735689600000" (todos s))) by (eexists; reflexivity).
  split; [exact H|].
  exact (proj2 (proj2 (proj2
           (arm_then_cancel "1735689600000" (JS.mkDate (JS.Num 1735781400000)) s))) H).
Defined.



(** ** Restoring the list on mount *)








(** ** Civil time, the other way round *)

Lemma era_dates_ok : all_from (Z.to_nat 148800) 0 era_date_ok = true.
Proof. vm_cast_no_check (eq_refl true). Qed.

Lemma civil_from_days_era (z : Z) :
  JS.civil_from_days z
  = let '(yoe, m, d) := civil_of_doe ((z + 719468) mod 146097) in
    (yoe + (z + 719468) / 146097 * 400 + (if m <=? 2 then 1 else 0), m, d).
Proof. reflexivity. Qed.

Lemma days_from_civil_era (y m d : Z) :
  JS.days_from_civil y m d
  = let y' := if m <=? 2 then y - 1 else y in
    y' / 400 * 146097 + doe_of_civil (y' mod 400) m d - 719468.
Proof. reflexivity. Qed.

(** A date that exists is read back from its day number. *)
Lemma days_of_civil_inverse (y m d : Z) :
  1 <= m <= 12 -> 1 <= d <= JS.daysInMonth y m ->
  JS.civil_from_days (JS.days_from_civil y m d) = (y, m, d).
Proof.
  intros Hm Hd. pose proof (daysInMonth_le_31 y m) as H31.
  rewrite days_from_civil_era. cbv zeta.
  set (c := if m <=? 2 then 1 else 0).
  assert (Hc : (if m <=? 2 then y - 1 else y) = y - c)
    by (unfold c; destruct (m <=? 2); lia).
  rewrite Hc.
  set (era := (y - c) / 400). set (yoe := (y - c) mod 400).
  assert (Hyoe : 0 <= yoe < 400) by (apply Z.mod_pos_bound; lia).
  assert (Hy : y - c = 400 * era + yoe) by (apply Z.div_mod; lia).
  pose proof (all_from_spec _ _ _ era_dates_ok
                (yoe * 372 + (m - 1) * 31 + (d - 1))) as Hok.
  rewrite Z2Nat.id in Hok by lia. specialize (Hok ltac:(lia)).
  unfold era_date_ok in Hok.
  assert (E1 : (yoe * 372 + (m - 1) * 31 + (d - 1)) / 372 = yoe)
    by (symmetry; apply (Z.div_unique _ 372 yoe ((m - 1) * 31 + (d - 1))); lia).
  assert (E2 : (yoe * 372 + (m - 1) * 31 + (d - 1)) / 31 = yoe * 12 + (m - 1))
    by (symmetry; apply (Z.div_unique _ 31 _ (d - 1)); lia).
  assert (E3 : (yoe * 372 + (m - 1) * 31 + (d - 1)) mod 31 = d - 1)
    by (symmetry; apply (Z.mod_unique _ 31 (yoe * 12 + (m - 1)) (d - 1)); lia).
  assert (E4 : (yoe * 12 + (m - 1)) mod 12 = m - 1)
    by (symmetry; apply (Z.mod_unique _ 12 yoe (m - 1)); lia).
  rewrite E1, E2, E3, E4 in Hok.
  replace (m - 1 + 1) with m in Hok by lia.
  replace (d - 1 + 1) with d in Hok by lia.
  fold c in Hok.
  assert (Hdim : JS.daysInMonth (yoe + c) m = JS.daysInMonth y m).
  { replace y with (yoe + c + era * 400) by lia. now rewrite daysInMonth_era. }
  rewrite Hdim in Hok.
  replace (d <=? JS.daysInMonth y m) with true in Hok
    by (symmetry; apply Z.leb_le; lia).
  cbn [negb orb] in Hok.
  set (doe := doe_of_civil yoe m d) in *.
  apply andb_split in Hok as [Hok Hciv]. apply andb_split in Hok as [Hlo Hhi].
  apply Z.leb_le in Hlo. apply Z.ltb_lt in Hhi.
  rewrite civil_from_days_era.
  replace (era * 146097 + doe - 719468 + 719468) with (doe + era * 146097) by lia.
  rewrite Z.mod_add by lia. rewrite Z.div_add by lia.
  rewrite (Z.mod_small doe) by lia. rewrite (Z.div_small doe) by lia.
  destruct (civil_of_doe doe) as [[yoe' m'] d'].
  apply andb_split in Hciv as [Hciv Hd']. apply andb_split in Hciv as [Hyo Hm'].
  apply Z.eqb_eq in Hyo, Hm', Hd'. subst yoe' m' d'.
  fold c. f_equal. f_equal. lia.
Qed.

Lemma parts_of_valid_time (e : Env) (t : Z) :
  Z.abs (t + 28800000) <= JS.maxTime ->
  getBeijingParts e (JS.Val (JS.Num t))
  = let '(y, m, d) := JS.civil_from_days ((t + 28800000) / JS.msPerDay) in
    mkParts (JS.Num y) (JS.Num m) (JS.Num d)
      (JS.Num (((t + 28800000) / JS.msPerHour) mod 24))
      (JS.Num (((t + 28800000) / JS.msPerMinute) mod 60)).
Proof.
  intros H. unfold getBeijingParts. cbn [JS.add].
  change (8 * 60 * 60 * 1000) with 28800000.
  unfold JS.getUTCFullYear, JS.getUTCMonth, JS.getUTCDate, JS.getUTCHours,
    JS.getUTCMinutes, JS.onTime, JS.Date_of_num, JS.TimeClip.
  apply Z.leb_le in H. rewrite H. cbn [JS.getTime JS.add].
  destruct (JS.civil_from_days ((t + 28800000) / JS.msPerDay)) as [[y m] d].
  now replace (m - 1 + 1) with m by lia.
Qed.

(** X13.  [getBeijingParts] of an instant whose Beijing time a [Date] can
    hold gives five numbers that form a real calendar date and time of
    day (month 1 to 12, a day that month has, hour 0 to 23, minute 0 to
    59), namely those of the Beijing minute the instant lies in; of any
    other instant it gives five NaN. *)
Theorem getBeijingParts_fields (e : Env) (t : Z) :
  let p := getBeijingParts e (JS.Val (JS.Num t)) in
  if Z.abs (t + 28800000) <=? JS.maxTime
  then exists y m d hh mm,
         p = mkParts (JS.Num y) (JS.Num m) (JS.Num d) (JS.Num hh) (JS.Num mm)
         /\ 1 <= m <= 12 /\ 1 <= d <= JS.daysInMonth y m
         /\ 0 <= hh <= 23 /\ 0 <= mm <= 59
         /\ let start := JS.days_from_civil y m d * JS.msPerDay + hh * JS.msPerHour
                         + mm * JS.msPerMinute - 28800000 in
            start <= t < start + 60000
  else p = mkParts JS.NaN JS.NaN JS.NaN JS.NaN JS.NaN.
Proof.
  cbv zeta. destruct (Z.abs (t + 28800000) <=? JS.maxTime) eqn:E.
  - apply Z.leb_le in E. rewrite (parts_of_valid_time e t E).
    set (T := t + 28800000).
    pose proof (civil_of_days_inverse (T / JS.msPerDay)) as Hciv.
    destruct (JS.civil_from_days (T / JS.msPerDay)) as [[y m] d].
    destruct Hciv as (Hinv & Hm & Hd & _).
    exists y, m, d, ((T / JS.msPerHour) mod 24), ((T / JS.msPerMinute) mod 60).
    split; [reflexivity|]. split; [exact Hm|]. split; [exact Hd|].
    assert (Hhh : 0 <= (T / JS.msPerHour) mod 24 < 24) by (apply Z.mod_pos_bound; lia).
    assert (Hmm : 0 <= (T / JS.msPerMinute) mod 60 < 60) by (apply Z.mod_pos_bound; lia).
    split; [lia|]. split; [lia|]. rewrite Hinv.
    unfold JS.msPerDay, JS.msPerHour, JS.msPerMinute in *. unfold T.
    Z.div_mod_to_equations. lia.
  - unfold getBeijingParts. cbn [JS.add].
    change (8 * 60 * 60 * 1000) with 28800000.
    unfold JS.getUTCFullYear, JS.getUTCMonth, JS.getUTCDate, JS.getUTCHours,
      JS.getUTCMinutes, JS.onTime, JS.Date_of_num, JS.TimeClip.
    rewrite E. reflexivity.
Qed.

(** The instant a real civil date and time in the years 1000 to 9999 is
    turned into. *)
Lemma makeDate_of_civil (e : Env) (y m d hh mm : Z) :
  1000 <= y <= 9999 -> 1 <= m <= 12 -> 1 <= d <= JS.daysInMonth y m ->
  0 <= hh <= 23 -> 0 <= mm <= 59 ->
  JS.getTime (makeDateFromBeijingParts e (JS.Num y) (JS.Num m) (JS.Num d)
                (JS.Num hh) (JS.Num mm))
  = JS.Num (JS.days_from_civil y m d * JS.msPerDay + hh * JS.msPerHour
            + mm * JS.msPerMinute - 28800000)
  /\ -427274 <= JS.days_from_civil y m d < 2932957.
Proof.
  intros Hy Hm Hd Hhh Hmm. pose proof (daysInMonth_le_31 y m) as H31.
  assert (Hdays : -427274 <= JS.days_from_civil y m d < 2932957).
  { pose proof (civil_of_days_inverse (JS.days_from_civil y m d)) as Hciv.
    rewrite (days_of_civil_inverse y m d Hm Hd) in Hciv.
    destruct Hciv as (_ & _ & _ & Hera & _).
    set (z := JS.days_from_civil y m d) in *.
    pose proof (Z.div_mod (z + 719468) 146097 ltac:(lia)) as Hdm.
    pose proof (Z.mod_pos_bound (z + 719468) 146097 ltac:(lia)) as Hb.
    lia. }
  split; [|exact Hdays].
  unfold makeDateFromBeijingParts, JS.Date_of_string, JS.Date_parse.
  cbn [JS.getTime].
  rewrite parse_iso_of_parts by lia.
  rewrite fields_in_bounds_civil by lia.
  unfold JS.time_of_fields.
  cbn [JS.f_year JS.f_month JS.f_day JS.f_hour JS.f_minute JS.f_second JS.f_offset].
  replace (JS.days_from_civil y m d * JS.msPerDay + hh * JS.msPerHour
           + mm * JS.msPerMinute + 0 * 1000 - 480 * JS.msPerMinute)
    with (JS.days_from_civil y m d * JS.msPerDay + hh * JS.msPerHour
          + mm * JS.msPerMinute - 28800000)
    by (unfold JS.msPerMinute; lia).
  unfold JS.TimeClip.
  match goal with |- context [Z.abs ?x <=? JS.maxTime] =>
    replace (Z.abs x <=? JS.maxTime) with true; [reflexivity|] end.
  symmetry. apply Z.leb_le.
  unfold JS.maxTime, JS.msPerDay, JS.msPerHour, JS.msPerMinute. lia.
Qed.

(** X14.  The round trip the other way: a civil date and time that
    exists, in the years 1000 to 9999, is turned into an instant from
    which [getBeijingParts] reads the same five numbers. *)
Theorem parts_round_trip (e : Env) (y m d hh mm : Z) :
  1000 <= y <= 9999 -> 1 <= m <= 12 -> 1 <= d <= JS.daysInMonth y m ->
  0 <= hh <= 23 -> 0 <= mm <= 59 ->
  getBeijingParts e
    (JS.Val (JS.getTime (makeDateFromBeijingParts e (JS.Num y) (JS.Num m) (JS.Num d)
                           (JS.Num hh) (JS.Num mm))))
  = mkParts (JS.Num y) (JS.Num m) (JS.Num d) (JS.Num hh) (JS.Num mm).
Proof.
  intros Hy Hm Hd Hhh Hmm.
  destruct (makeDate_of_civil e y m d hh mm Hy Hm Hd Hhh Hmm) as [-> Hdays].
  set (z := JS.days_from_civil y m d) in *.
  set (t := z * JS.msPerDay + hh * JS.msPerHour + mm * JS.msPerMinute - 28800000).
  assert (Hclip : Z.abs (t + 28800000) <= JS.maxTime)
    by (unfold t, JS.maxTime, JS.msPerDay, JS.msPerHour, JS.msPerMinute; lia).
  rewrite (parts_of_valid_time e t Hclip).
  assert (E1 : (t + 28800000) / JS.msPerDay = z).
  { unfold t, JS.msPerDay, JS.msPerHour, JS.msPerMinute. symmetry.
    apply (Z.div_unique _ 86400000 z (hh * 3600000 + mm * 60000)); lia. }
  assert (E2 : ((t + 28800000) / JS.msPerHour) mod 24 = hh).
  { unfold t, JS.msPerDay, JS.msPerHour, JS.msPerMinute.
    replace ((z * 86400000 + hh * 3600000 + mm * 60000 - 28800000 + 28800000) / 3600000)
      with (z * 24 + hh)
      by (apply (Z.div_unique _ 3600000 _ (mm * 60000)); lia).
    symmetry. apply (Z.mod_unique _ 24 z hh); lia. }
  assert (E3 : ((t + 28800000) / JS.msPerMinute) mod 60 = mm).
  { unfold t, JS.msPerDay, JS.msPerHour, JS.msPerMinute.
    replace ((z * 86400000 + hh * 3600000 + mm * 60000 - 28800000 + 28800000) / 60000)
      with ((z * 1440 + hh * 60) + mm)
      by (apply (Z.div_unique _ 60000 _ 0); lia).
    symmetry. apply (Z.mod_unique _ 60 (z * 24 + hh) mm); lia. }
  rewrite E1, E2, E3. unfold z.
  now rewrite (days_of_civil_inverse y m d Hm Hd).
Qed.

Lemma parts_round_trip_witness :
  1000 <= 2024 <= 9999 /\ 1 <= 2 <= 12 /\ 1 <= 29 <= JS.daysInMonth 2024 2
  /\ 0 <= 23 <= 23 /\ 0 <= 59 <= 59
  /\ getBeijingParts sample_env
       (JS.Val (JS.getTime (makeDateFromBeijingParts sample_env (JS.Num 2024)
                              (JS.Num 2) (JS.Num 29) (JS.Num 23) (JS.Num 59))))
     = mkParts (JS.Num 2024) (JS.Num 2) (JS.Num 29) (JS.Num 23) (JS.Num 59).
Proof.
  assert (H1 : 1000 <= 2024 <= 9999) by lia.
  assert (H2 : 1 <= 2 <= 12) by lia.
  assert (H3 : 1 <= 29 <= JS.daysInMonth 2024 2) by (vm_compute; split; discriminate).
  assert (H4 : 0 <= 23 <= 23) by lia.
  assert (H5 : 0 <= 59 <= 59) by lia.
  split; [exact H1|]. split; [exact H2|]. split; [exact H3|].
  split; [exact H4|]. split; [exact H5|].
  exact (parts_round_trip sample_env 2024 2 29 23 59 H1 H2 H3 H4 H5).
Defined.

(** ** Formatting *)

(** X15.  [formatBeijingShort] leaves the date out exactly when the
    instant and the clock fall on the same Beijing calendar day; otherwise
    it puts month and day in front of the time. *)
Theorem formatBeijingShort_same_day (e : Env) (ts : Z) :
  Z.abs (ts + 28800000) <= JS.maxTime -> Z.abs (now e + 28800000) <= JS.maxTime ->
  let p := getBeijingParts e (JS.Val (JS.Num ts)) in
  formatBeijingShort e (JS.Num ts)
  = if (ts + 28800000) / JS.msPerDay =? (now e + 28800000) / JS.msPerDay
    then pad2 (hour p) ++ ":" ++ pad2 (minute p)
    else pad2 (month p) ++ "-" ++ pad2 (day p) ++ " "
         ++ pad2 (hour p) ++ ":" ++ pad2 (minute p).
Proof.
  intros Hts Hnow p. unfold formatBeijingShort. fold p.
  change (getBeijingParts e JS.Undefined)
    with (getBeijingParts e (JS.Val (JS.Num (now e)))).
  assert (Hsame : num_eqb (year (getBeijingParts e (JS.Val (JS.Num (now e))))) (year p)
                  && num_eqb (month (getBeijingParts e (JS.Val (JS.Num (now e))))) (month p)
                  && num_eqb (day (getBeijingParts e (JS.Val (JS.Num (now e))))) (day p)
                  = ((ts + 28800000) / JS.msPerDay =? (now e + 28800000) / JS.msPerDay)).
  { unfold p. rewrite (parts_of_valid_time e ts Hts), (parts_of_valid_time e (now e) Hnow).
    set (z1 := (ts + 28800000) / JS.msPerDay).
    set (z2 := (now e + 28800000) / JS.msPerDay).
    pose proof (civil_of_days_inverse z1) as H1.
    pose proof (civil_of_days_inverse z2) as H2.
    destruct (JS.civil_from_days z1) as [[y1 m1] d1] eqn:C1.
    destruct (JS.civil_from_days z2) as [[y2 m2] d2] eqn:C2.
    destruct H1 as (H1 & _). destruct H2 as (H2 & _).
    cbn [year month day num_eqb].
    destruct (z1 =? z2) eqn:E.
    - apply Z.eqb_eq in E. rewrite E, C2 in C1. injection C1 as -> -> ->.
      now rewrite !Z.eqb_refl.
    - apply Z.eqb_neq in E.
      destruct ((y2 =? y1) && (m2 =? m1) && (d2 =? d1)) eqn:E2; [|reflexivity].
      exfalso. apply E.
      apply andb_split in E2 as [E2 Ed]. apply andb_split in E2 as [Ey Em].
      apply Z.eqb_eq in Ey, Em, Ed. subst. congruence. }
  rewrite Hsame. reflexivity.
Qed.

Lemma formatBeijingShort_same_day_witness :
  Z.abs (1735695000000 + 28800000) <= JS.maxTime
  /\ Z.abs (now sample_env + 28800000) <= JS.maxTime
  /\ formatBeijingShort sample_env (JS.Num 1735695000000) = "09:30".
Proof.
  assert (H1 : Z.abs (1735695000000 + 28800000) <= JS.maxTime)
    by (vm_compute; discriminate).
  assert (H2 : Z.abs (now sample_env + 28800000) <= JS.maxTime)
    by (vm_compute; discriminate).
  split; [exact H1|]. split; [exact H2|].
  exact (formatBeijingShort_same_day sample_env 1735695000000 H1 H2).
Defined.

Lemma pad_fields_ok : all_from (Z.to_nat 100) 0 pad_field_ok = true.
Proof. vm_cast_no_check (eq_refl true). Qed.

(** X16.  [pad2] of a number from 0 to 99 is exactly two characters, the
    two decimal digits of the number: a date string reads it back as that
    number and so does [parseInt]. *)
Theorem pad2_two_digits (n : Z) :
  0 <= n <= 99 ->
  String.length (pad2 (JS.Num n)) = 2%nat
  /\ JS.read_digits 2 0 (pad2 (JS.Num n)) = Some (n, "")
  /\ JS.parseInt (pad2 (JS.Num n)) = JS.Num n.
Proof.
  intros Hn.
  pose proof (all_from_spec _ _ _ pad_fields_ok n) as H.
  rewrite Z2Nat.id in H by lia. specialize (H ltac:(lia)).
  unfold pad_field_ok in H.
  apply andb_split in H as [H Hp]. apply andb_split in H as [Hl Hr].
  apply Nat.eqb_eq in Hl. split; [exact Hl|]. split.
  - destruct (JS.read_digits 2 0 (pad2 (JS.Num n))) as [[v r]|]; [|discriminate].
    destruct r; [|discriminate]. apply Z.eqb_eq in Hr. now subst v.
  - destruct (JS.parseInt (pad2 (JS.Num n))) as [|v]; [discriminate|].
    apply Z.eqb_eq in Hp. now subst v.
Qed.

Lemma pad2_two_digits_witness :
  0 <= 7 <= 99 /\ String.length (pad2 (JS.Num 7)) = 2%nat
  /\ JS.read_digits 2 0 (pad2 (JS.Num 7)) = Some (7, "")
  /\ JS.parseInt (pad2 (JS.Num 7)) = JS.Num 7.
Proof.
  assert (H : 0 <= 7 <= 99) by lia.
  split; [exact H|]. exact (pad2_two_digits 7 H).
Defined.

(** ** The reminder dialog *)

Lemma all_chars_app (p : ascii -> bool) (a b : string) :
  all_chars p (a ++ b) = all_chars p a && all_chars p b.
Proof.
  induction a as [|c a IH]; [reflexivity|].
  change (String c a ++ b) with (String c (a ++ b)). cbn [all_chars].
  now rewrite IH, andb_assoc.
Qed.

Lemma all_chars_weaken (p q : ascii -> bool) (s : string) :
  (forall c, p c = true -> q c = true) -> all_chars p s = true -> all_chars q s = true.
Proof.
  intros Hpq. induction s as [|c s IH]; [reflexivity|]. cbn [all_chars].
  intros H. apply andb_split in H as [Hc Hs]. now rewrite (Hpq c Hc), IH.
Qed.

Lemma trimEnd_no_white (s : string) :
  all_chars (fun c => negb (JS.isWhiteSpace c)) s = true -> JS.trimEnd s = s.
Proof.
  induction s as [|c s IH]; [reflexivity|]. cbn [all_chars]. intros H.
  apply andb_split in H as [Hc Hs]. rewrite trimEnd_cons, (IH Hs).
  destruct s; [|reflexivity]. apply negb_true_iff in Hc. now rewrite Hc.
Qed.

(** A text without white space is its own trimmed form. *)
Lemma trim_no_white (s : string) :
  all_chars (fun c => negb (JS.isWhiteSpace c)) s = true -> JS.trim s = s.
Proof.
  intros H. unfold JS.trim.
  assert (Hs : JS.trimStart s = s).
  { destruct s as [|c s]; [reflexivity|]. cbn [all_chars] in H.
    apply andb_split in H as [Hc _]. apply negb_true_iff in Hc.
    cbn [JS.trimStart]. now rewrite Hc. }
  rewrite Hs. now apply trimEnd_no_white.
Qed.

Lemma split_no_sep (sep : ascii) (a : string) :
  all_chars (fun c => negb (Ascii.eqb c sep)) a = true -> JS.split sep a = [a].
Proof.
  induction a as [|c a IH]; [reflexivity|]. cbn [all_chars]. intros H.
  apply andb_split in H as [Hc Ha]. apply negb_true_iff in Hc.
  cbn [JS.split]. now rewrite Hc, (IH Ha).
Qed.

Lemma split_at_sep (sep : ascii) (a b : string) :
  all_chars (fun c => negb (Ascii.eqb c sep)) a = true ->
  JS.split sep (a ++ String sep b) = a :: JS.split sep b.
Proof.
  induction a as [|c a IH]; cbn [all_chars].
  - intros _. change ("" ++ String sep b) with (String sep b).
    cbn [JS.split]. now rewrite Ascii.eqb_refl.
  - intros H. apply andb_split in H as [Hc Ha]. apply negb_true_iff in Hc.
    change (String c a ++ String sep b) with (String c (a ++ String sep b)).
    cbn [JS.split]. now rewrite Hc, (IH Ha).
Qed.

Lemma plain_not_white c : plain_char c = true -> negb (JS.isWhiteSpace c) = true.
Proof.
  unfold plain_char. intros H. apply andb_split in H as [H _].
  now apply andb_split in H as [H _].
Qed.

Lemma plain_not_dash c : plain_char c = true -> negb (Ascii.eqb c "-") = true.
Proof.
  unfold plain_char. intros H. apply andb_split in H as [H _].
  now apply andb_split in H as [_ H].
Qed.

Lemma plain_not_colon c : plain_char c = true -> negb (Ascii.eqb c ":") = true.
Proof. unfold plain_char. intros H. now apply andb_split in H as [_ H]. Qed.

Lemma year_texts_ok : all_from (Z.to_nat 9000) 1000 year_text_ok = true.
Proof. vm_cast_no_check (eq_refl true). Qed.

Lemma pad_texts_ok : all_from (Z.to_nat 100) 0 pad_text_ok = true.
Proof. vm_cast_no_check (eq_refl true). Qed.

Lemma year_text (y : Z) :
  1000 <= y <= 9999 ->
  all_chars plain_char (JS.String_of (JS.Num y)) = true
  /\ JS.parseInt (JS.String_of (JS.Num y)) = JS.Num y.
Proof.
  intros Hy. pose proof (all_from_spec _ _ _ year_texts_ok y) as H.
  rewrite Z2Nat.id in H by lia. specialize (H ltac:(lia)).
  unfold year_text_ok in H. apply andb_split in H as [Hc Hp].
  split; [exact Hc|].
  destruct (JS.parseInt (JS.String_of (JS.Num y))) as [|v]; [discriminate|].
  apply Z.eqb_eq in Hp. now subst v.
Qed.

Lemma pad_text (n : Z) :
  0 <= n <= 99 ->
  all_chars plain_char (pad2 (JS.Num n)) = true
  /\ JS.parseInt (pad2 (JS.Num n)) = JS.Num n.
Proof.
  intros Hn. pose proof (all_from_spec _ _ _ pad_texts_ok n) as H.
  rewrite Z2Nat.id in H by lia. specialize (H ltac:(lia)).
  unfold pad_text_ok in H. apply andb_split in H as [Hc Hp].
  split; [exact Hc|].
  destruct (JS.parseInt (pad2 (JS.Num n))) as [|v]; [discriminate|].
  apply Z.eqb_eq in Hp. now subst v.
Qed.

(** What the dialog's handler reads out of a date and a time written the
    way the dialog writes them. *)
Lemma parse_date_text (y m d : Z) :
  1000 <= y <= 9999 -> 0 <= m <= 99 -> 0 <= d <= 99 ->
  map JS.parseInt (JS.split "-" (JS.trim (date_text y m d)))
  = [JS.Num y; JS.Num m; JS.Num d].
Proof.
  intros Hy Hm Hd. unfold date_text.
  destruct (year_text y Hy) as [Cy Py].
  destruct (pad_text m Hm) as [Cm Pm]. destruct (pad_text d Hd) as [Cd Pd].
  rewrite trim_no_white.
  - change ("-" ++ pad2 (JS.Num m) ++ "-" ++ pad2 (JS.Num d))
      with (String "-" (pad2 (JS.Num m) ++ String "-" (pad2 (JS.Num d)))).
    rewrite split_at_sep by (eapply all_chars_weaken; [apply plain_not_dash|exact Cy]).
    rewrite split_at_sep by (eapply all_chars_weaken; [apply plain_not_dash|exact Cm]).
    rewrite split_no_sep by (eapply all_chars_weaken; [apply plain_not_dash|exact Cd]).
    cbn [map]. now rewrite Py, Pm, Pd.
  - rewrite !all_chars_app.
    rewrite (all_chars_weaken _ _ _ plain_not_white Cy),
      (all_chars_weaken _ _ _ plain_not_white Cm),
      (all_chars_weaken _ _ _ plain_not_white Cd). reflexivity.
Qed.

Lemma parse_time_text (hh mm : Z) :
  0 <= hh <= 99 -> 0 <= mm <= 99 ->
  map JS.parseInt (JS.split ":" (JS.trim (time_text hh mm))) = [JS.Num hh; JS.Num mm].
Proof.
  intros Hh Hm. unfold time_text.
  destruct (pad_text hh Hh) as [Ch Ph]. destruct (pad_text mm Hm) as [Cm Pm].
  rewrite trim_no_white.
  - change (":" ++ pad2 (JS.Num mm)) with (String ":" (pad2 (JS.Num mm))).
    rewrite split_at_sep by (eapply all_chars_weaken; [apply plain_not_colon|exact Ch]).
    rewrite split_no_sep by (eapply all_chars_weaken; [apply plain_not_colon|exact Cm]).
    cbn [map]. now rewrite Ph, Pm.
  - rewrite !all_chars_app.
    rewrite (all_chars_weaken _ _ _ plain_not_white Ch),
      (all_chars_weaken _ _ _ plain_not_white Cm). reflexivity.
Qed.

Lemma date_of_time (dt : JS.Date) (x : JS.num) : JS.getTime dt = x -> dt = JS.mkDate x.
Proof. destruct dt. cbn. now intros ->. Qed.

Lemma confirm_of_texts (s : State) (target : string) (y m d hh mm : Z) :
  reminderTargetId s = Some target -> target <> "" ->
  reminderDateText s = date_text y m d -> reminderTimeText s = time_text hh mm ->
  1000 <= y <= 9999 -> 1 <= m <= 12 -> 1 <= d <= JS.daysInMonth y m ->
  0 <= hh <= 23 -> 0 <= mm <= 59 ->
  confirmReminder s
  = if civil_instant y m d hh mm <=? now (env s)
    then setEnv (alert NotFuture) s
    else setReminderModalVisible false
           (scheduleReminder (todos s) target
              (JS.mkDate (JS.Num (civil_instant y m d hh mm))) s).
Proof.
  intros Ht Hne Hdate Htime Hy Hm Hd Hhh Hmm.
  pose proof (daysInMonth_le_31 y m) as H31.
  unfold confirmReminder.
  rewrite Ht, (truthy_str_true target Hne), Hdate, Htime.
  rewrite parse_date_text, parse_time_text by lia.
  cbn [negb length Nat.eqb existsb JS.isNaN orb].
  destruct (makeDate_of_civil (env s) y m d hh mm Hy Hm Hd Hhh Hmm) as [Hget _].
  apply date_of_time in Hget. rewrite Hget. cbn [JS.getTime JS.le]. reflexivity.
Qed.

(** X17.  A date and a time of day written as the dialog writes them
    ([YYYY-MM-DD] and [HH:mm], a date that exists, years 1000 to 9999) are
    taken as Beijing time: if that instant is after the clock the reminder
    is armed for exactly that instant and the dialog closes, otherwise the
    only effect is the message that a future time is needed. *)
Theorem confirm_understands_beijing_time (s : State) (target : string) (y m d hh mm : Z) :
  reminderTargetId s = Some target -> target <> "" ->
  reminderDateText s = date_text y m d -> reminderTimeText s = time_text hh mm ->
  1000 <= y <= 9999 -> 1 <= m <= 12 -> 1 <= d <= JS.daysInMonth y m ->
  0 <= hh <= 23 -> 0 <= mm <= 59 ->
  confirmReminder s
  = if civil_instant y m d hh mm <=? now (env s)
    then setEnv (alert NotFuture) s
    else setReminderModalVisible false
           (scheduleReminder (todos s) target
              (JS.mkDate (JS.Num (civil_instant y m d hh mm))) s).
Proof. exact (confirm_of_texts s target y m d hh mm). Qed.

Lemma confirm_understands_beijing_time_witness :
  let s := run [TypeDraft "Buy milk"; Add; OpenPicker "1735689600000";
                TypeDate "2025-01-02"; TypeTime "09:30"] (init sample_env) in
  reminderTargetId s = Some "1735689600000" /\ "1735689600000" <> ""
  /\ reminderDateText s = date_text 2025 1 2 /\ reminderTimeText s = time_text 9 30
  /\ 1000 <= 2025 <= 9999 /\ 1 <= 1 <= 12 /\ 1 <= 2 <= JS.daysInMonth 2025 1
  /\ 0 <= 9 <= 23 /\ 0 <= 30 <= 59
  /\ confirmReminder s
     = setReminderModalVisible false
         (scheduleReminder (todos s) "1735689600000"
            (JS.mkDate (JS.Num 1735781400000)) s).
Proof.
  intros s.
  assert (H1 : reminderTargetId s = Some "1735689600000") by reflexivity.
  assert (H2 : "1735689600000" <> "") by discriminate.
  assert (H3 : reminderDateText s = date_text 2025 1 2) by reflexivity.
  assert (H4 : reminderTimeText s = time_text 9 30) by reflexivity.
  assert (H5 : 1000 <= 2025 <= 9999) by lia.
  assert (H6 : 1 <= 1 <= 12) by lia.
  assert (H7 : 1 <= 2 <= JS.daysInMonth 2025 1) by (vm_compute; split; discriminate).
  assert (H8 : 0 <= 9 <= 23) by lia.
  assert (H9 : 0 <= 30 <= 59) by lia.
  repeat (split; [assumption|]).
  exact (confirm_understands_beijing_time s "1735689600000" 2025 1 2 9 30
           H1 H2 H3 H4 H5 H6 H7 H8 H9).
Defined.

Lemma year_range_of_day (z : Z) :
  0 <= z <= 2932896 ->
  let '(y, m, d) := JS.civil_from_days z in
  1000 <= y <= 9999 /\ 1 <= m <= 12 /\ 1 <= d <= JS.daysInMonth y m
  /\ JS.days_from_civil y m d = z.
Proof.
  intros Hz. pose proof (civil_of_days_inverse z) as Hciv.
  destruct (JS.civil_from_days z) as [[y m] d].
  destruct Hciv as (Hinv & Hm & Hd & Hera & Hlast).
  pose proof (Z.div_mod (z + 719468) 146097 ltac:(lia)) as Hdm.
  pose proof (Z.mod_pos_bound (z + 719468) 146097 ltac:(lia)) as Hb.
  assert (Hq : 4 <= (z + 719468) / 146097 <= 24) by lia.
  split; [|auto]. split; [lia|].
  destruct (Z.eq_dec ((z + 719468) / 146097) 24) as [E|E]; [|lia].
  apply Z.le_trans with ((z + 719468) / 146097 * 400 + 399); [|lia].
  apply Hlast. lia.
Qed.

(** The clock split into Beijing day, hour, minute and the rest. *)
Lemma clock_split (t : Z) :
  let T := t + 28800000 in
  let z := T / JS.msPerDay in
  let hh := (T / JS.msPerHour) mod 24 in
  let mi := (T / JS.msPerMinute) mod 60 in
  0 <= hh <= 23 /\ 0 <= mi <= 59
  /\ mi = (t / 60000) mod 60
  /\ z * JS.msPerDay + hh * JS.msPerHour - 28800000 = t - t mod 3600000
  /\ t - t mod 3600000 + mi * 60000 <= t < t - t mod 3600000 + mi * 60000 + 60000.
Proof.
  cbv zeta. unfold JS.msPerDay, JS.msPerHour, JS.msPerMinute.
  Z.div_mod_to_equations. lia.
Qed.

(** The fields [openReminderPicker] fills in, and the instant they
    name. *)
Lemma picker_texts (i : string) (s : State) :
  0 <= now (env s) < 253402185600000 ->
  let t := now (env s) in
  exists y m d hh mm,
    reminderDateText (openReminderPicker i s) = date_text y m d
    /\ reminderTimeText (openReminderPicker i s) = time_text hh mm
    /\ 1000 <= y <= 9999 /\ 1 <= m <= 12 /\ 1 <= d <= JS.daysInMonth y m
    /\ 0 <= hh <= 23 /\ 0 <= mm <= 59
    /\ civil_instant y m d hh mm
       = t - t mod 3600000 + (if (t / 60000) mod 60 <=? 30 then 1800000 else 3600000).
Proof.
  intros Hnow t. unfold openReminderPicker.
  cbn [setReminderModalVisible setReminderTimeText setReminderDateText
         setReminderTargetId reminderDateText reminderTimeText env].
  change (getBeijingParts (env s) JS.Undefined)
    with (getBeijingParts (env s) (JS.Val (JS.Num t))).
  assert (Hclip : Z.abs (t + 28800000) <= JS.maxTime)
    by (unfold JS.maxTime, t; lia).
  rewrite (parts_of_valid_time (env s) t Hclip).
  destruct (clock_split t) as (Hhh & Hmi & Emi & Ehour & _).
  set (T := t + 28800000) in *.
  set (z := T / JS.msPerDay) in *.
  set (hh := (T / JS.msPerHour) mod 24) in *.
  set (mi := (T / JS.msPerMinute) mod 60) in *.
  assert (Hz : 0 <= z <= 2932895).
  { unfold z, T, JS.msPerDay, t. split.
    - apply Z.div_pos; lia.
    - apply Z.lt_succ_r. apply Z.div_lt_upper_bound; lia. }
  pose proof (year_range_of_day z ltac:(lia)) as Htoday.
  destruct (JS.civil_from_days z) as [[y m] d] eqn:Cz.
  destruct Htoday as (Hy & Hm & Hd & Hinv).
  cbn [year month day hour minute JS.lt JS.le num_eqb].
  rewrite <- Emi.
  destruct (30 <? mi) eqn:Elate.
  - apply Z.ltb_lt in Elate.
    replace (mi <=? 30) with false by (symmetry; apply Z.leb_gt; lia).
    cbn [andb]. destruct (hh =? 23) eqn:E23.
    + apply Z.eqb_eq in E23.
      pose proof (year_range_of_day (z + 1) ltac:(lia)) as Htom.
      assert (Etom : (t + 8 * 3600 * 1000 + JS.msPerDay) / JS.msPerDay = z + 1).
      { unfold z, T, JS.msPerDay.
        replace (t + 8 * 3600 * 1000 + 86400000) with (t + 28800000 + 1 * 86400000) by lia.
        now rewrite Z.div_add by lia. }
      unfold JS.Date_of_num, JS.TimeClip. cbn [JS.add].
      unfold JS.getUTCFullYear, JS.getUTCMonth, JS.getUTCDate, JS.onTime.
      cbn [JS.getTime JS.add]. fold t.
      replace (Z.abs (t + 8 * 3600 * 1000 + JS.msPerDay) <=? JS.maxTime) with true
        by (symmetry; apply Z.leb_le; unfold JS.maxTime, JS.msPerDay, t; lia).
      cbv iota. rewrite Etom.
      destruct (JS.civil_from_days (z + 1)) as [[y' m'] d'].
      destruct Htom as (Hy' & Hm' & Hd' & Hinv').
      cbn [JS.add]. replace (m' - 1 + 1) with m' by lia.
      exists y', m', d', 0, 0.
      split; [reflexivity|]. split.
      * rewrite E23. reflexivity.
      * repeat (split; [lia|]). unfold civil_instant. rewrite Hinv'.
        unfold JS.msPerDay, JS.msPerHour, JS.msPerMinute in *. lia.
    + apply Z.eqb_neq in E23.
      exists y, m, d, (hh + 1), 0.
      split; [reflexivity|]. split.
      * rewrite (Z.mod_small (hh + 1) 24) by lia. reflexivity.
      * repeat (split; [lia|]). unfold civil_instant. rewrite Hinv.
        unfold JS.msPerDay, JS.msPerHour, JS.msPerMinute in *. lia.
  - apply Z.ltb_ge in Elate.
    replace (mi <=? 30) with true by (symmetry; apply Z.leb_le; lia).
    cbn [andb]. exists y, m, d, hh, 30.
    split; [reflexivity|]. split; [reflexivity|].
    repeat (split; [lia|]). unfold civil_instant. rewrite Hinv.
    unfold JS.msPerDay, JS.msPerHour, JS.msPerMinute in *. lia.
Qed.

(** X18.  [openReminderPicker] opens the dialog on the next half hour of
    Beijing time: confirming the fields as they stand arms the reminder
    for the next time the Beijing clock shows minute 30 or minute 0, at
    most thirty minutes ahead.  The exception is minute 30 itself: then
    the fields name the minute that has just begun, and confirming them is
    refused as not being in the future. *)
Theorem picker_defaults_to_next_half_hour (i : string) (s : State) :
  i <> "" -> 0 <= now (env s) < 253402185600000 ->
  let s1 := openReminderPicker i s in
  let t := now (env s) in
  let boundary :=
    t - t mod 3600000 + (if (t / 60000) mod 60 <=? 30 then 1800000 else 3600000) in
  reminderModalVisible s1 = true
  /\ confirmReminder s1
     = (if boundary <=? t then setEnv (alert NotFuture) s1
        else setReminderModalVisible false
               (scheduleReminder (todos s) i (JS.mkDate (JS.Num boundary)) s1))
  /\ (boundary <= t <-> (t / 60000) mod 60 = 30)
  /\ boundary <= t + 1800000.
Proof.
  intros Hi Hnow s1 t boundary.
  destruct (picker_texts i s Hnow)
    as (y & m & d & hh & mm & Hdate & Htime & Hy & Hm & Hd & Hhh & Hmm & Hinst).
  fold s1 in Hdate, Htime. fold t boundary in Hinst.
  split; [reflexivity|]. split.
  - assert (Ht : reminderTargetId s1 = Some i) by reflexivity.
    rewrite (confirm_of_texts s1 i y m d hh mm Ht Hi Hdate Htime Hy Hm Hd Hhh Hmm).
    rewrite Hinst. reflexivity.
  - destruct (clock_split t) as (_ & Hmi & Emi & _ & Hmin). rewrite <- Emi in *.
    unfold boundary. rewrite <- Emi.
    set (mi := ((t + 28800000) / JS.msPerMinute) mod 60) in *.
    destruct (mi <=? 30) eqn:E; [apply Z.leb_le in E|apply Z.leb_gt in E]; lia.
Qed.

Lemma picker_defaults_to_next_half_hour_witness :
  let s := run [TypeDraft "Buy milk"; Add; Tick 1800000] (init sample_env) in
  "1735689600000" <> "" /\ 0 <= now (env s) < 253402185600000
  /\ confirmReminder (openReminderPicker "1735689600000" s)
     = setEnv (alert NotFuture) (openReminderPicker "1735689600000" s).
Proof.
  intros s.
  assert (H1 : "1735689600000" <> "") by discriminate.
  assert (H2 : 0 <= now (env s) < 253402185600000) by (vm_compute; split; [discriminate|reflexivity]).
  split; [exact H1|]. split; [exact H2|].
  exact (proj1 (proj2 (picker_defaults_to_next_half_hour "1735689600000" s H1 H2))).
Defined.
